(** * mini-proxy: the header-rewriting pipeline of [main.go]

  A shallow embedding of the reverse proxy's request handling
  ([getRealIP], the customised [Director], [ErrorHandler] and the
  [responseWriter] wrapper) together with the parts of Go's standard
  library they call: [strings.Split], [strings.Join],
  [net.SplitHostPort], [textproto.CanonicalMIMEHeaderKey], the
  [http.Header] methods, [http.Error], the response writer of
  [net/http], the single-host director of [httputil] and the steps of
  [httputil.ReverseProxy] between the director and the transport.

  Go strings are byte sequences: they are modelled as [string], whose
  characters ([ascii]) are bytes.  [http.Header] is a
  [map[string][]string]: a [gmap string (list string)]. *)

From Stdlib Require Import ZArith NArith Ascii String List Bool Lia.
From Stdlib Require Import DecimalString.
From stdpp Require Import base option gmap strings list fin_maps.

Local Open Scope list_scope.
Local Open Scope string_scope.

Set Default Proof Using "Type".

(** ** Bytes and slices of Go strings *)

Module bytealg.

(** [s[:n]] for [n <= len(s)]. *)
Fixpoint take (n : nat) (s : string) {struct s} : string :=
  match s, n with
  | String b s', S n' => String b (take n' s')
  | _, _ => ""
  end.

(** [s[n:]] for [n <= len(s)]. *)
Fixpoint drop (n : nat) (s : string) {struct s} : string :=
  match s, n with
  | String _ s', S n' => drop n' s'
  | _, _ => s
  end.

(** [s[lo:hi]]. *)
Definition slice (s : string) (lo hi : nat) : string :=
  take (hi - lo) (drop lo s).

(** [s[i]]; [None] where Go would panic (index out of range). *)
Fixpoint byteAt (s : string) (i : nat) : option ascii :=
  match s, i with
  | "", _ => None
  | String b _, O => Some b
  | String _ s', S i' => byteAt s' i'
  end.

(** [IndexByteString]: the index of the first [c] in [s]; Go's [-1] is
    [None]. *)
Fixpoint IndexByteString (s : string) (c : ascii) : option nat :=
  match s with
  | "" => None
  | String b s' =>
      if Ascii.eqb b c then Some 0
      else match IndexByteString s' c with
           | Some i => Some (S i)
           | None => None
           end
  end.

(** [LastIndexByteString]: the index of the last [c] in [s]. *)
Fixpoint LastIndexByteString (s : string) (c : ascii) : option nat :=
  match s with
  | "" => None
  | String b s' =>
      match LastIndexByteString s' c with
      | Some i => Some (S i)
      | None => if Ascii.eqb b c then Some 0 else None
      end
  end.

End bytealg.

(** ** Package [strings] *)

Module strings.

(** [strings.Split(s, sep)] for a separator of one byte, the only use
    in the program ([","]).  The result is never empty:
    [Split("", ",")] is [[""]]. *)
Fixpoint Split (s : string) (sep : ascii) : list string :=
  match s with
  | "" => [""]
  | String b s' =>
      if Ascii.eqb b sep then "" :: Split s' sep
      else match Split s' sep with
           | f :: fs => String b f :: fs
           | [] => [String b ""]
           end
  end.

(** [strings.Join(elems, sep)]. *)
Definition Join (elems : list string) (sep : string) : string :=
  String.concat sep elems.

(** [strings.HasPrefix] and [strings.HasSuffix]. *)
Definition HasPrefix (s p : string) : bool := String.prefix p s.

Definition HasSuffix (s p : string) : bool :=
  String.eqb (bytealg.drop (String.length s - String.length p) s) p
  && (String.length p <=? String.length s)%nat.

(** The table [asciiSpace] of package [strings]: tab, newline,
    vertical tab, form feed, carriage return and space. *)
Definition asciiSpace (c : ascii) : bool :=
  let n := N_of_ascii c in
  ((9 <=? n) && (n <=? 13) || (n =? 32))%N.

Fixpoint trimLeft (s : string) : string :=
  match s with
  | String b s' => if asciiSpace b then trimLeft s' else s
  | "" => ""
  end.

Fixpoint trimRight (s : string) : string :=
  match s with
  | String b s' =>
      match trimRight s' with
      | "" => if asciiSpace b then "" else String b ""
      | t => String b t
      end
  | "" => ""
  end.

(** The ASCII path of [strings.TrimSpace]: what it returns on every
    string whose bytes are all below [0x80].  (On other strings Go
    also trims the Unicode spaces; the development is parametric in
    [TrimSpace] and uses this instance on ASCII inputs only.) *)
Definition TrimSpaceASCII (s : string) : string := trimRight (trimLeft s).

End strings.

(** ** Package [net] *)

Module net.

(** [*net.AddrError]. *)
Record AddrError := mkAddrError { Err : string; Addr : string }.

Inductive result (A : Type) : Type :=
| ok (a : A)
| err (e : AddrError).
Arguments ok {A} a.
Arguments err {A} e.

Definition missingPort : string := "missing port in address".
Definition tooManyColons : string := "too many colons in address".

Definition addrErr {A} (addr why : string) : result A :=
  err {| Err := why; Addr := addr |}.

Definition hasByte (s : string) (c : ascii) : bool :=
  match bytealg.IndexByteString s c with Some _ => true | None => false end.

(** The two closing checks of [SplitHostPort], shared by both
    branches: no ['['] from position [j] on, no [']'] from [k] on. *)
Definition finish (hostport host : string) (i j k : nat)
  : result (string * string) :=
  if hasByte (bytealg.drop j hostport) "["
  then addrErr hostport "unexpected '[' in address"
  else if hasByte (bytealg.drop k hostport) "]"
  then addrErr hostport "unexpected ']' in address"
  else ok (host, bytealg.drop (S i) hostport).

(** [net.SplitHostPort]: ["host:port"], ["host%zone:port"],
    ["[host]:port"] or ["[host%zone]:port"] into host and port. *)
Definition SplitHostPort (hostport : string) : result (string * string) :=
  match bytealg.LastIndexByteString hostport ":" with
  | None => addrErr hostport missingPort
  | Some i =>
      if decide (bytealg.byteAt hostport 0 = Some "["%char) then
        match bytealg.IndexByteString hostport "]" with
        | None => addrErr hostport "missing ']' in address"
        | Some end_ =>
            if decide (S end_ = String.length hostport) then
              addrErr hostport missingPort
            else if decide (S end_ = i) then
              finish hostport (bytealg.slice hostport 1 end_) i 1 (S end_)
            else if decide (bytealg.byteAt hostport (S end_) = Some ":"%char)
            then addrErr hostport tooManyColons
            else addrErr hostport missingPort
        end
      else
        let host := bytealg.take i hostport in
        if hasByte host ":" then addrErr hostport tooManyColons
        else finish hostport host i 0 0
  end.

End net.

(** ** Package [net/textproto]: canonical header keys *)

Module textproto.

Definition between (lo hi : N) (c : ascii) : bool :=
  let n := N_of_ascii c in ((lo <=? n) && (n <=? hi))%N.

Definition isLower : ascii -> bool := between 97 122.
Definition isUpper : ascii -> bool := between 65 90.
Definition isDigit : ascii -> bool := between 48 57.

(** The token bytes of RFC 7230 (the table [isTokenTable]). *)
Definition validHeaderFieldByte (c : ascii) : bool :=
  isLower c || isUpper c || isDigit c
  || existsb (Ascii.eqb c)
       ["!"; "#"; "$"; "%"; "&"; "'"; "*"; "+"; "-"; "."; "^"; "_"; "`";
        "|"; "~"]%char.

(** ['a' - 'A']. *)
Definition toLower : N := 32.

(** The rewriting loop of [canonicalMIMEHeaderKey]: upper case for the
    first letter and after each dash, lower case elsewhere. *)
Fixpoint canonicalize (upper : bool) (a : string) : string :=
  match a with
  | "" => ""
  | String c a' =>
      let c' :=
        if upper && isLower c then ascii_of_N (N_of_ascii c - toLower)
        else if negb upper && isUpper c
             then ascii_of_N (N_of_ascii c + toLower)
             else c in
      String c' (canonicalize (Ascii.eqb c' "-") a')
  end.

(** The first loop of [canonicalMIMEHeaderKey]: [None] when a byte is
    neither a token byte nor a space (the key is returned unchanged,
    not ok), else [Some noCanon]. *)
Fixpoint looksLikeKey (a : string) (noCanon : bool) : option bool :=
  match a with
  | "" => Some noCanon
  | String c a' =>
      if validHeaderFieldByte c then looksLikeKey a' noCanon
      else if Ascii.eqb c " " then looksLikeKey a' true
      else None
  end.

Definition canonicalMIMEHeaderKey (a : string) : string * bool :=
  match looksLikeKey a false with
  | None => (a, false)
  | Some true => (a, true)
  | Some false => (canonicalize true a, true)
  end.

(** The quick check of [CanonicalMIMEHeaderKey]: [rest] is the part of
    [s] still to scan. *)
Fixpoint quickCheck (s rest : string) (upper : bool) : string :=
  match rest with
  | "" => s
  | String c rest' =>
      if negb (validHeaderFieldByte c) then s
      else if upper && isLower c then fst (canonicalMIMEHeaderKey s)
      else if negb upper && isUpper c then fst (canonicalMIMEHeaderKey s)
      else quickCheck s rest' (Ascii.eqb c "-")
  end.

Definition CanonicalMIMEHeaderKey (s : string) : string :=
  quickCheck s s true.

(** [textproto.MIMEHeader], the representation of [http.Header]. *)
Abbreviation MIMEHeader := (gmap string (list string)).

(** [h.Get(key)]: the first value under the canonical key, [""] when
    there is none. *)
Definition Get (h : MIMEHeader) (key : string) : string :=
  match h !! CanonicalMIMEHeaderKey key with
  | Some (v :: _) => v
  | _ => ""
  end.

(** [h.Set(key, value)]. *)
Definition Set_ (h : MIMEHeader) (key value : string) : MIMEHeader :=
  <[CanonicalMIMEHeaderKey key := [value]]> h.

(** [h.Del(key)]. *)
Definition Del (h : MIMEHeader) (key : string) : MIMEHeader :=
  delete (CanonicalMIMEHeaderKey key) h.

End textproto.

(** ** Packages [net/url], [crypto/tls], [net/http] *)

Module url.

Record Userinfo := mkUserinfo {
  username : string;
  password : string;
  passwordSet : bool
}.

(** [url.URL]. *)
Record URL := mkURL {
  Scheme : string;
  Opaque : string;
  User : option Userinfo;
  Host : string;
  Path : string;
  RawPath : string;
  OmitHost : bool;
  ForceQuery : bool;
  RawQuery : string;
  Fragment : string;
  RawFragment : string
}.

End url.

Module tls.

(** [tls.ConnectionState]; the program only tests [req.TLS != nil]. *)
Record ConnectionState := mkConnectionState {
  Version : N;
  ServerName : string
}.

End tls.

Module http.
Import textproto.

Definition StatusOK : Z := 200.

(** [http.Request]: the fields a handler of this program can observe.
    [TLS] is a pointer, [nil] for a plain-text connection. *)
Record Request := mkRequest {
  Method : string;
  URL : url.URL;
  Proto : string;
  Header : MIMEHeader;
  Body : string;
  ContentLength : Z;
  Host : string;
  RemoteAddr : string;
  RequestURI : string;
  TLS : option tls.ConnectionState
}.

Definition withURL (u : url.URL) (r : Request) : Request :=
  mkRequest (Method r) u (Proto r) (Header r) (Body r) (ContentLength r)
    (Host r) (RemoteAddr r) (RequestURI r) (TLS r).

Definition withHeader (h : MIMEHeader) (r : Request) : Request :=
  mkRequest (Method r) (URL r) (Proto r) h (Body r) (ContentLength r)
    (Host r) (RemoteAddr r) (RequestURI r) (TLS r).

Definition withHost (host : string) (r : Request) : Request :=
  mkRequest (Method r) (URL r) (Proto r) (Header r) (Body r)
    (ContentLength r) host (RemoteAddr r) (RequestURI r) (TLS r).

(** [http.response], the server's implementation of
    [http.ResponseWriter]: the header map, whether the status line has
    been sent, the status sent, the body bytes written so far, the
    informational (1xx) responses sent before the status, and whether a
    call panicked (the handler is then unwound). *)
Record response := mkResponse {
  rwHeader : MIMEHeader;
  wroteHeader : bool;
  status : Z;
  written : string;
  interim : list Z;
  panicked : bool
}.

Definition StatusSwitchingProtocols : Z := 101.

(** [checkWriteHeaderCode(code)] panics unless the code has three
    digits. *)
Definition checkWriteHeaderCode (code : Z) : bool :=
  ((100 <=? code) && (code <=? 999))%Z.

(** An informational code that is sent as an interim response. *)
Definition informational (code : Z) : bool :=
  ((100 <=? code) && (code <=? 199) && negb (code =? StatusSwitchingProtocols))%Z.

(** [bodyAllowedForStatus(status)]. *)
Definition bodyAllowedForStatus (status : Z) : bool :=
  negb (((100 <=? status) && (status <=? 199)) || (status =? 204)
        || (status =? 304))%Z.

(** [w.WriteHeader(code)]: a call after the status was sent is
    superfluous and ignored; a code outside 100..999 panics; a 1xx code
    other than 101 is sent as an interim response and the status is
    still to come; any other code is the status. *)
Definition WriteHeader (w : response) (code : Z) : response :=
  if wroteHeader w then w
  else if negb (checkWriteHeaderCode code) then
    mkResponse (rwHeader w) (wroteHeader w) (status w) (written w)
      (interim w) true
  else if informational code then
    mkResponse (rwHeader w) (wroteHeader w) (status w) (written w)
      (interim w ++ [code]) (panicked w)
  else mkResponse (rwHeader w) true code (written w) (interim w) (panicked w).

(** [w.Write(data)]: sends [StatusOK] first when no status was sent;
    nothing is written for an empty [data] or under a status that
    allows no body. *)
Definition Write (w : response) (data : string) : response :=
  let w := if wroteHeader w then w else WriteHeader w StatusOK in
  if decide (data = "") then w
  else if negb (bodyAllowedForStatus (status w)) then w
  else mkResponse (rwHeader w) (wroteHeader w) (status w) (written w ++ data)
         (interim w) (panicked w).

End http.

(** ** Package [net/http]: [http.Error] over the writer interface *)

Module httpError.
Import textproto.

(** The interface [http.ResponseWriter].  [Header()] returns the header
    map, which callers mutate in place: [putHeader] stores the mutated
    map back. *)
Class ResponseWriter (W : Type) := {
  Header : W -> MIMEHeader;
  putHeader : W -> MIMEHeader -> W;
  WriteHeader : W -> Z -> W;
  Write : W -> string -> W
}.




#[global] Instance baseWriter : ResponseWriter http.response := {
  Header := http.rwHeader;
  putHeader w h :=
    http.mkResponse h (http.wroteHeader w) (http.status w)
      (http.written w) (http.interim w) (http.panicked w);
  WriteHeader := http.WriteHeader;
  Write := http.Write
}.

End httpError.

(** ** Package [net/http/httputil]: the single-host director *)

Module httputil.
Import url http.

Section director.

(** [u.EscapedPath()], a function of package [net/url]. *)
Variable EscapedPath : url.URL -> string.

Definition singleJoiningSlash (a b : string) : string :=
  let aslash := strings.HasSuffix a "/" in
  let bslash := strings.HasPrefix b "/" in
  if aslash && bslash then a ++ bytealg.drop 1 b
  else if negb aslash && negb bslash then a ++ "/" ++ b
  else a ++ b.

Definition joinURLPath (a b : url.URL) : string * string :=
  if decide (url.RawPath a = "" /\ url.RawPath b = "") then
    (singleJoiningSlash (url.Path a) (url.Path b), "")
  else
    let apath := EscapedPath a in
    let bpath := EscapedPath b in
    let aslash := strings.HasSuffix apath "/" in
    let bslash := strings.HasPrefix bpath "/" in
    if aslash && bslash then
      (url.Path a ++ bytealg.drop 1 (url.Path b), apath ++ bytealg.drop 1 bpath)
    else if negb aslash && negb bslash then
      (url.Path a ++ "/" ++ url.Path b, apath ++ "/" ++ bpath)
    else (url.Path a ++ url.Path b, apath ++ bpath).

(** [rewriteRequestURL(req, target)]: only [req.URL] is assigned. *)
Definition rewriteRequestURL (req : Request) (target : url.URL) : Request :=
  let targetQuery := url.RawQuery target in
  let u := URL req in
  let '(path, rawpath) := joinURLPath target u in
  let query :=
    if decide (targetQuery = "" \/ url.RawQuery u = "")
    then targetQuery ++ url.RawQuery u
    else targetQuery ++ "&" ++ url.RawQuery u in
  withURL
    (mkURL (url.Scheme target) (Opaque u) (User u) (url.Host target) path
       rawpath (OmitHost u) (ForceQuery u) query (Fragment u) (RawFragment u))
    req.

(** The [Director] that [NewSingleHostReverseProxy(target)] installs
    (Go 1.20 and later). *)
Definition NewSingleHostReverseProxy (target : url.URL) : Request -> Request :=
  fun req => rewriteRequestURL req target.

End director.
End httputil.

(** ** Package [net/http/httputil]: what [ReverseProxy.ServeHTTP] does
    to the request once the director has returned *)

Module reverseproxy.
Import textproto http.

Definition isOWS (c : ascii) : bool :=
  Ascii.eqb c " " || (N_of_ascii c =? 9)%N.

(** [textproto.isASCIISpace]: space, tab, newline, carriage return. *)
Definition isASCIISpace (c : ascii) : bool :=
  let n := N_of_ascii c in ((n =? 32) || (n =? 9) || (n =? 10) || (n =? 13))%N.

Fixpoint trimLeftBy (space : ascii -> bool) (s : string) : string :=
  match s with
  | String b s' => if space b then trimLeftBy space s' else s
  | "" => ""
  end.

Fixpoint trimRightBy (space : ascii -> bool) (s : string) : string :=
  match s with
  | String b s' =>
      match trimRightBy space s' with
      | "" => if space b then "" else String b ""
      | t => String b t
      end
  | "" => ""
  end.

(** [httpguts.trimOWS] and [textproto.TrimString]. *)
Definition trimOWS (s : string) : string :=
  trimRightBy isOWS (trimLeftBy isOWS s).

Definition TrimString (s : string) : string :=
  trimRightBy isASCIISpace (trimLeftBy isASCIISpace s).

Definition lowerASCII (c : ascii) : ascii :=
  if isUpper c then ascii_of_N (N_of_ascii c + toLower) else c.

(** [httpguts.tokenEqual]: equal up to ASCII case; a byte of [t1]
    outside ASCII makes it false. *)
Fixpoint tokenEqual (t1 t2 : string) : bool :=
  match t1, t2 with
  | "", "" => true
  | String b1 t1', String b2 t2' =>
      (N_of_ascii b1 <? 128)%N
      && Ascii.eqb (lowerASCII b1) (lowerASCII b2)
      && tokenEqual t1' t2'
  | _, _ => false
  end.

(** [httpguts.headerValueContainsToken]. *)
Definition headerValueContainsToken (v token : string) : bool :=
  existsb (fun part => tokenEqual (trimOWS part) token) (strings.Split v ",").

Definition HeaderValuesContainsToken (values : list string) (token : string)
  : bool :=
  existsb (fun v => headerValueContainsToken v token) values.

(** [h[key]]: no value for a key that is absent. *)
Definition values (h : MIMEHeader) (key : string) : list string :=
  default [] (h !! key).

Definition upgradeType (h : MIMEHeader) : string :=
  if negb (HeaderValuesContainsToken (values h "Connection") "Upgrade") then ""
  else Get h "Upgrade".

(** [ascii.IsPrint]: every byte between space and tilde. *)
Fixpoint IsPrint (s : string) : bool :=
  match s with
  | "" => true
  | String b s' =>
      let n := N_of_ascii b in ((32 <=? n) && (n <=? 126))%N && IsPrint s'
  end.

Definition hopHeaders : list string :=
  ["Connection"; "Proxy-Connection"; "Keep-Alive"; "Proxy-Authenticate";
   "Proxy-Authorization"; "Te"; "Trailer"; "Transfer-Encoding"; "Upgrade"].

(** [removeHopByHopHeaders(h)]: the headers the [Connection] values
    list, then the fixed set. *)
Definition removeHopByHopHeaders (h : MIMEHeader) : MIMEHeader :=
  let h :=
    fold_left
      (fun h f =>
         fold_left
           (fun h sf =>
              let sf := TrimString sf in
              if decide (sf <> "") then Del h sf else h)
           (strings.Split f ",") h)
      (values h "Connection") h in
  fold_left Del hopHeaders h.

(** Where [ServeHTTP] stands when it has prepared the outbound request:
    it has answered through the error handler, or it hands [outreq] to
    the transport. *)
Inductive outcome :=
| Rejected (reqUpType : string)
| Outbound (outreq : Request).

(** [outreq := req.Clone(ctx)], its body dropped when the request
    announces none. *)
Definition clone (req : Request) : Request :=
  mkRequest (Method req) (URL req) (Proto req) (Header req)
    (if (ContentLength req =? 0)%Z then "" else Body req)
    (ContentLength req) (Host req) (RemoteAddr req) (RequestURI req) (TLS req).

(** [ReverseProxy.ServeHTTP] with a [Director] set, from the clone of
    the inbound request to the call of [transport.RoundTrip] (Go 1.20
    and later).  The director works on the clone, so [req] below is the
    inbound request as it arrived.  A key bound to no value stands for
    Go's nil slice, by which a director asks for no [X-Forwarded-For]. *)
Definition outboundRequest (Director : Request -> Request) (req : Request)
  : outcome :=
  let outreq := Director (clone req) in
  let reqUpType := upgradeType (Header outreq) in
  if negb (IsPrint reqUpType) then Rejected reqUpType
  else
    let h := removeHopByHopHeaders (Header outreq) in
    let h :=
      if HeaderValuesContainsToken (values (Header req) "Te") "trailers"
      then Set_ h "Te" "trailers" else h in
    let h :=
      if decide (reqUpType <> "")
      then Set_ (Set_ h "Connection" "Upgrade") "Upgrade" reqUpType
      else h in
    let h :=
      match net.SplitHostPort (RemoteAddr req) with
      | net.ok (clientIP, _) =>
          match h !! "X-Forwarded-For" with
          | Some [] => h
          | Some prior =>
              Set_ h "X-Forwarded-For"
                (strings.Join prior ", " ++ ", " ++ clientIP)
          | None => Set_ h "X-Forwarded-For" clientIP
          end
      | net.err _ => h
      end in
    let h :=
      match h !! "User-Agent" with
      | Some _ => h
      | None => Set_ h "User-Agent" ""
      end in
    Outbound (withHeader h outreq).

End reverseproxy.

(** ** The program: [main.go] *)

Import textproto.

(** A line handed to [log.Printf]: the format and its operands, already
    rendered as strings where the program passes strings. *)
Record LogEntry := Printf { format : string; args : list string }.


(** [responseWriter] wraps [http.ResponseWriter] to capture the status
    code. *)
Record responseWriter := mkWrapped {
  ResponseWriter : http.response;
  statusCode : Z
}.

(** [func (rw *responseWriter) WriteHeader(code int)]. *)
Definition WriteHeader (rw : responseWriter) (code : Z) : responseWriter :=
  let rw := mkWrapped (ResponseWriter rw) code in
  mkWrapped (http.WriteHeader (ResponseWriter rw) code) (statusCode rw).

(** The embedded field promotes [Header] and [Write]. *)
#[global] Instance wrappedWriter : httpError.ResponseWriter responseWriter := {
  httpError.Header rw := http.rwHeader (ResponseWriter rw);
  httpError.putHeader rw h :=
    mkWrapped (httpError.putHeader (ResponseWriter rw) h) (statusCode rw);
  httpError.WriteHeader := WriteHeader;
  httpError.Write rw data :=
    mkWrapped (http.Write (ResponseWriter rw) data) (statusCode rw)
}.

(** ** Handlers, seen from the response writer *)

(** What a handler does to the [http.ResponseWriter] it is given: a
    sequence of [w.Header().Set(key, value)], [w.WriteHeader(code)] and
    [w.Write(data)] calls. *)
Inductive call :=
| callSet (key value : string)
| callWriteHeader (code : Z)
| callWrite (data : string).

Definition perform {W} `{httpError.ResponseWriter W} (w : W) (c : call) : W :=
  match c with
  | callSet key value =>
      httpError.putHeader w (Set_ (httpError.Header w) key value)
  | callWriteHeader code => httpError.WriteHeader w code
  | callWrite data => httpError.Write w data
  end.

(** Whether a call on the writer has panicked: the handler was unwound
    there and makes no further call. *)
Class Unwinds (W : Type) := unwound : W -> bool.

#[global] Instance response_unwinds : Unwinds http.response := http.panicked.

#[global] Instance responseWriter_unwinds : Unwinds responseWriter :=
  fun rw => http.panicked (ResponseWriter rw).

Definition step {W} `{httpError.ResponseWriter W} `{Unwinds W} (w : W)
    (c : call) : W :=
  if unwound w then w else perform w c.

Definition serve {W} `{httpError.ResponseWriter W} `{Unwinds W}
    (calls : list call) (w : W) : W :=
  fold_left step calls w.

(** An [http.Handler] that leaves the request as it is: the calls it
    makes on the writer and the lines it logs. *)
Definition Handler : Type := http.Request -> list call * list LogEntry.

Definition ServeHTTP {W} `{httpError.ResponseWriter W} `{Unwinds W}
    (h : Handler) (w : W) (r : http.Request) : W * list LogEntry :=
  let '(calls, lines) := h r in (serve calls w, lines).

(** The verb [%d] of [log.Printf] on an [int]. *)
Definition Itoa (n : Z) : string := NilZero.string_of_int (Z.to_int n).

(** ** The start of [main]: configuration from the environment *)

Section startup.

(** [url.Parse], a function of package [net/url]; [inl] is its error,
    rendered. *)
Variable Parse : string -> string + url.URL.

(** [os.Getenv]: the empty string for a variable that is not set. *)
Definition Getenv (env : gmap string string) (key : string) : string :=
  default "" (env !! key).

(** What [main] does before it serves: a [log.Fatal] line, or the
    target, the address handed to [http.ListenAndServe] and the line
    logged on the way. *)
Definition configure (env : gmap string string)
  : LogEntry + (url.URL * string * LogEntry) :=
  let backendURL := Getenv env "BACKEND_URL" in
  if decide (backendURL = "") then
    inl (Printf "BACKEND_URL environment variable is required" [])
  else
    match Parse backendURL with
    | inl e => inl (Printf "Invalid BACKEND_URL: %v" [e])
    | inr target =>
        let port := Getenv env "PORT" in
        let port := if decide (port = "") then "8080" else port in
        inr (target, ":" ++ port,
             Printf "Starting proxy server on port %s, forwarding to %s"
               [port; backendURL])
    end.

End startup.

(** ** The resolution rule in the specification's words *)

(** "Highest to lowest priority, first non-empty wins": the first
    non-empty string of the candidates, the empty string when there is
    none.  Used only to compare [getRealIP] with. *)
Fixpoint firstNonEmpty (candidates : list string) : string :=
  match candidates with
  | [] => ""
  | c :: rest => if decide (c <> "") then c else firstNonEmpty rest
  end.

(** ** Sample data *)

(** Instances of the two [url.URL] methods for URLs whose path has
    nothing to escape and that carry only a scheme, a host and a path. *)
Definition plainEscapedPath (u : url.URL) : string :=
  if decide (url.RawPath u = "") then url.Path u else url.RawPath u.

Definition plainURLString (u : url.URL) : string :=
  url.Scheme u ++ "://" ++ url.Host u ++ plainEscapedPath u.

(** [BACKEND_URL=http://backend.internal:9000]. *)
Definition backend : url.URL :=
  url.mkURL "http" "" None "backend.internal:9000" "" "" false false "" "" "".

Definition sampleRequest (h : MIMEHeader) (remoteAddr : string)
    (conn : option tls.ConnectionState) : http.Request :=
  http.mkRequest "GET"
    (url.mkURL "" "" None "" "/items/42" "" false false "" "" "")
    "HTTP/1.1" h "" 0 "shop.example.com" remoteAddr "/items/42" conn.

Definition tls13 : option tls.ConnectionState :=
  Some (tls.mkConnectionState 772 "shop.example.com").

(** A request over TLS that went through one proxy already. *)
Definition reqChain : http.Request :=
  sampleRequest
    {[ "X-Forwarded-For" := ["10.0.0.1"]; "Connection" := ["keep-alive"];
       "Accept" := ["*/*"] ]}
    "10.0.0.2:443" tls13.

(** A request from a load balancer that set [X-Real-IP]. *)
Definition reqRealIP : http.Request :=
  sampleRequest
    {[ "X-Real-Ip" := ["203.0.113.7"]; "X-Forwarded-For" := ["10.0.0.1"];
       "X-Forwarded-Proto" := ["https"];
       "X-Forwarded-Host" := ["www.example.com"] ]}
    "10.0.0.2:51000" None.

(** A direct plain-text request with no forwarding header. *)
Definition reqPlain : http.Request :=
  sampleRequest {[ "Upgrade" := ["websocket"] ]} "10.0.0.2:443" None.

(** A request whose remote address has no port (["@"] is what a Unix
    socket peer reports). *)
Definition reqNoPort : http.Request := sampleRequest ∅ "@" None.

Definition reqNoPortChain : http.Request :=
  sampleRequest {[ "X-Forwarded-For" := ["10.0.0.1"] ]} "@" None.

(** A request whose [X-Forwarded-For] starts with an empty element. *)
Definition reqBlankFirst : http.Request :=
  sampleRequest {[ "X-Forwarded-For" := [", 10.0.0.1"] ]} "10.0.0.2:443" None.

(** A response nothing was written to yet, wrapped by [logMiddleware]. *)
Definition freshWriter : responseWriter :=
  mkWrapped (http.mkResponse ∅ false 0 "" [] false) http.StatusOK.

(** An IPv6 peer behind one proxy. *)
Definition reqV6 : http.Request :=
  sampleRequest {[ "X-Forwarded-For" := ["10.0.0.1"] ]}
    "[2001:db8::1]:51234" None.

(** A handler that answers 404. *)
Definition notFound : Handler :=
  fun _ => ([callSet "Content-Type" "text/plain"; callWriteHeader 404;
             callWrite "not found"], []).

Definition freshResponse : http.response :=
  http.mkResponse ∅ false 0 "" [] false.

Definition parseBackend (s : string) : string + url.URL :=
  if decide (s = "http://backend.internal:9000") then inr backend
  else inl "parse error".

Definition sampleEnv : gmap string string :=
  {[ "BACKEND_URL" := "http://backend.internal:9000"; "PORT" := "" ]}.

Section proxy.
Import http net.

(** Library functions the program calls and the embedding leaves
    abstract: [strings.TrimSpace] and the methods [EscapedPath] and
    [String] of [url.URL]. *)
Variable TrimSpace : string -> string.
Variable EscapedPath : url.URL -> string.
Variable URLString : url.URL -> string.

(** [target], parsed once from [BACKEND_URL] and captured by the
    closures of [main]. *)
Variable target : url.URL.

(** [getRealIP] extracts the real IP address from an HTTP request. *)
Definition getRealIP (r : Request) : string :=
  let xri := Get (Header r) "X-Real-IP" in
  if decide (xri <> "") then xri
  else
    let xff := Get (Header r) "X-Forwarded-For" in
    let fallback :=
      match SplitHostPort (RemoteAddr r) with
      | err _ => RemoteAddr r
      | ok (ip, _) => ip
      end in
    if decide (xff <> "") then
      match strings.Split xff "," with
      | ip0 :: _ => TrimSpace ip0
      | [] => fallback
      end
    else fallback.


Definition originalDirector : Request -> Request :=
  httputil.NewSingleHostReverseProxy EscapedPath target.

(** The blocks of the customised [Director], in the order of the
    source. *)

(** Remove headers that shouldn't be forwarded to the backend. *)
Definition stripHopByHop (req : Request) : Request :=
  let h := Del (Header req) "Connection" in
  let h := Del h "Upgrade" in
  let h := Del h "Transfer-Encoding" in
  withHeader h req.

(** Save the original host, then set [req.Host] to the target host. *)
Definition rewriteHost (req : Request) : string * Request :=
  let originalHost := Host req in
  (originalHost, withHost (url.Host target) req).

(** Handle [X-Forwarded-For]. *)
Definition setForwardedFor (req : Request) : Request :=
  let xri := Get (Header req) "X-Real-IP" in
  if decide (xri <> "") then
    withHeader (Set_ (Header req) "X-Forwarded-For" xri) req
  else
    match SplitHostPort (RemoteAddr req) with
    | ok (clientIP, _) =>
        let clientIP :=
          match Header req !! "X-Forwarded-For" with
          | Some prior => strings.Join prior ", " ++ ", " ++ clientIP
          | None => clientIP
          end in
        withHeader (Set_ (Header req) "X-Forwarded-For" clientIP) req
    | err _ => req
    end.

(** Set [X-Forwarded-Proto] if not already set. *)
Definition setForwardedProto (req : Request) : Request :=
  match Header req !! "X-Forwarded-Proto" with
  | Some _ => req
  | None =>
      match TLS req with
      | Some _ => withHeader (Set_ (Header req) "X-Forwarded-Proto" "https") req
      | None =>
          let proto := Get (Header req) "X-Forwarded-Proto" in
          if decide (proto <> "") then
            withHeader (Set_ (Header req) "X-Forwarded-Proto" proto) req
          else withHeader (Set_ (Header req) "X-Forwarded-Proto" "http") req
      end
  end.

(** Set [X-Forwarded-Host] if not already set. *)
Definition setForwardedHost (originalHost : string) (req : Request) : Request :=
  match Header req !! "X-Forwarded-Host" with
  | Some _ => req
  | None => withHeader (Set_ (Header req) "X-Forwarded-Host" originalHost) req
  end.

(** [proxy.Director]: the request as it leaves the director, and the
    line it logs. *)
Definition Director (req : Request) : Request * list LogEntry :=
  let req := originalDirector req in
  let req := stripHopByHop req in
  let '(originalHost, req) := rewriteHost req in
  let req := setForwardedFor req in
  let req := setForwardedProto req in
  let req := setForwardedHost originalHost req in
  (req,
   [Printf "Forwarding request: %s %s to %s with Host: %s, X-Forwarded-For: %s"
      [Method req; url.Path (URL req); URLString target; Host req;
       Get (Header req) "X-Forwarded-For"]]).

(** The request the transport is given for an inbound request:
    [proxy.ServeHTTP] runs the director above, then its own steps. *)
Definition forwarded (req : Request) : reverseproxy.outcome :=
  reverseproxy.outboundRequest (fun r => (Director r).1) req.

(** [logMiddleware(next)], as a handler over the writer it is given:
    the writer after [next] has run, and the lines logged in order. *)
Definition logMiddleware (next : Handler) (w : http.response) (r : Request)
  : http.response * list LogEntry :=
  let realIP := getRealIP r in
  let xff := Get (Header r) "X-Forwarded-For" in
  let xfh := Get (Header r) "X-Forwarded-Host" in
  let xproto := Get (Header r) "X-Forwarded-Proto" in
  let xri := Get (Header r) "X-Real-IP" in
  let incoming :=
    Printf "Incoming request: %s %s, Client IP: %s (X-Real-IP: %s, X-Forwarded-For: %s), X-Forwarded-Host: %s, X-Forwarded-Proto: %s"
      [Method r; url.Path (URL r); realIP; xri; xff; xfh; xproto] in
  let wrapped := mkWrapped w StatusOK in
  let '(wrapped, lines) := ServeHTTP next wrapped r in
  let outgoing :=
    Printf "Response: %s %s -> %d"
      [Method r; url.Path (URL r); Itoa (statusCode wrapped)] in
  (ResponseWriter wrapped, incoming :: lines ++ [outgoing]).

(** The [Director] of the first implementation (the file
    [unnamed/part_000]), block by block: no [X-Real-IP], no stripping,
    no host rewrite. *)

(** Append the client address to [X-Forwarded-For]. *)
Definition appendClientIP (req : Request) : Request :=
  match SplitHostPort (RemoteAddr req) with
  | ok (clientIP, _) =>
      let clientIP :=
        match Header req !! "X-Forwarded-For" with
        | Some prior => strings.Join prior ", " ++ ", " ++ clientIP
        | None => clientIP
        end in
      withHeader (Set_ (Header req) "X-Forwarded-For" clientIP) req
  | err _ => req
  end.

(** Set [X-Forwarded-Proto] if not already set. *)
Definition protoIfAbsent (req : Request) : Request :=
  match Header req !! "X-Forwarded-Proto" with
  | Some _ => req
  | None =>
      match TLS req with
      | None => withHeader (Set_ (Header req) "X-Forwarded-Proto" "http") req
      | Some _ => withHeader (Set_ (Header req) "X-Forwarded-Proto" "https") req
      end
  end.

(** Set [X-Forwarded-Host] if not already set. *)
Definition hostIfAbsent (req : Request) : Request :=
  match Header req !! "X-Forwarded-Host" with
  | Some _ => req
  | None => withHeader (Set_ (Header req) "X-Forwarded-Host" (Host req)) req
  end.

Definition Director_part_000 (req : Request) : Request :=
  let req := originalDirector req in
  let req := appendClientIP req in
  let req := protoIfAbsent req in
  hostIfAbsent req.

(** ** Facts about the library layer *)

Lemma canon_Connection : CanonicalMIMEHeaderKey "Connection" = "Connection".
Proof. reflexivity. Qed.

Lemma canon_Upgrade : CanonicalMIMEHeaderKey "Upgrade" = "Upgrade".
Proof. reflexivity. Qed.

Lemma canon_TransferEncoding :
  CanonicalMIMEHeaderKey "Transfer-Encoding" = "Transfer-Encoding".
Proof. reflexivity. Qed.

Lemma canon_XRealIP : CanonicalMIMEHeaderKey "X-Real-IP" = "X-Real-Ip".
Proof. reflexivity. Qed.

Lemma canon_XForwardedFor :
  CanonicalMIMEHeaderKey "X-Forwarded-For" = "X-Forwarded-For".
Proof. reflexivity. Qed.

Lemma canon_XForwardedProto :
  CanonicalMIMEHeaderKey "X-Forwarded-Proto" = "X-Forwarded-Proto".
Proof. reflexivity. Qed.

Lemma canon_XForwardedHost :
  CanonicalMIMEHeaderKey "X-Forwarded-Host" = "X-Forwarded-Host".
Proof. reflexivity. Qed.

Ltac canon :=
  unfold Get, Set_, Del;
  rewrite ?canon_Connection, ?canon_Upgrade, ?canon_TransferEncoding,
    ?canon_XRealIP, ?canon_XForwardedFor, ?canon_XForwardedProto,
    ?canon_XForwardedHost.

(** Membership of a literal key in a literal list, decided by
    evaluation. *)
Ltac listed := apply (bool_decide_unpack _); vm_compute; exact I.

(** Two distinct literal keys. *)
Ltac keys := solve [ intros Hkeys; discriminate Hkeys | congruence | done ].

Lemma Get_Some h key v vs :
  h !! CanonicalMIMEHeaderKey key = Some (v :: vs) -> Get h key = v.
Proof. unfold Get. by intros ->. Qed.

Lemma Get_None h key : h !! CanonicalMIMEHeaderKey key = None -> Get h key = "".
Proof. unfold Get. by intros ->. Qed.

Lemma Get_ext h h' key :
  h' !! CanonicalMIMEHeaderKey key = h !! CanonicalMIMEHeaderKey key ->
  Get h' key = Get h key.
Proof. unfold Get. by intros ->. Qed.

(** ** The blocks of the director, one at a time *)

Lemma originalDirector_frame req :
  let req' := originalDirector req in
  Method req' = Method req /\ Proto req' = Proto req /\
  Header req' = Header req /\ Body req' = Body req /\
  ContentLength req' = ContentLength req /\ Host req' = Host req /\
  RemoteAddr req' = RemoteAddr req /\ RequestURI req' = RequestURI req /\
  TLS req' = TLS req.
Proof.
  unfold originalDirector, httputil.NewSingleHostReverseProxy,
    httputil.rewriteRequestURL.
  destruct (httputil.joinURLPath _ _ _) as [path rawpath]. by cbn.
Qed.

Lemma originalDirector_URL req :
  let u := URL req in
  let u' := URL (originalDirector req) in
  url.Scheme u' = url.Scheme target /\ url.Host u' = url.Host target /\
  url.Opaque u' = url.Opaque u /\ url.User u' = url.User u /\
  url.OmitHost u' = url.OmitHost u /\ url.ForceQuery u' = url.ForceQuery u /\
  url.Fragment u' = url.Fragment u /\ url.RawFragment u' = url.RawFragment u.
Proof.
  unfold originalDirector, httputil.NewSingleHostReverseProxy,
    httputil.rewriteRequestURL.
  destruct (httputil.joinURLPath _ _ _) as [path rawpath]. by cbn.
Qed.

Lemma stripHopByHop_lookup req k :
  Header (stripHopByHop req) !! k =
  if bool_decide (k ∈ ["Connection"; "Upgrade"; "Transfer-Encoding"])
  then None else Header req !! k.
Proof.
  unfold stripHopByHop. cbn [Header withHeader]. canon.
  case_bool_decide as Hk.
  - repeat (apply elem_of_cons in Hk as [->|Hk]);
      rewrite ?lookup_delete_eq; try done.
    + rewrite !lookup_delete_ne by keys. by rewrite lookup_delete_eq.
    + rewrite lookup_delete_ne by keys. by rewrite lookup_delete_eq.
    + by apply elem_of_nil in Hk.
  - rewrite !lookup_delete_ne; [done | | |];
      intros <-; apply Hk; listed.
Qed.

Lemma setForwardedFor_lookup_ne req k :
  k <> "X-Forwarded-For" ->
  Header (setForwardedFor req) !! k = Header req !! k.
Proof.
  intros Hk. unfold setForwardedFor.
  destruct (decide _); [| destruct (SplitHostPort _) as [[ip port]|e]];
    cbn [Header withHeader]; canon; try done;
    by rewrite lookup_insert_ne.
Qed.

Lemma setForwardedProto_lookup_ne req k :
  k <> "X-Forwarded-Proto" ->
  Header (setForwardedProto req) !! k = Header req !! k.
Proof.
  intros Hk. unfold setForwardedProto.
  destruct (Header req !! "X-Forwarded-Proto"); [done |].
  destruct (TLS req); [| destruct (decide _)];
    cbn [Header withHeader]; canon; by rewrite lookup_insert_ne.
Qed.

Lemma setForwardedHost_lookup_ne originalHost req k :
  k <> "X-Forwarded-Host" ->
  Header (setForwardedHost originalHost req) !! k = Header req !! k.
Proof.
  intros Hk. unfold setForwardedHost.
  destruct (Header req !! "X-Forwarded-Host"); [done |].
  cbn [Header withHeader]; canon; by rewrite lookup_insert_ne.
Qed.

Lemma withHeader_id req : withHeader (Header req) req = req.
Proof. by destruct req. Qed.

Lemma setForwardedFor_shape req :
  setForwardedFor req = withHeader (Header (setForwardedFor req)) req.
Proof.
  unfold setForwardedFor.
  destruct (decide _); [| destruct (SplitHostPort _) as [[ip port]|e]];
    try done. by rewrite withHeader_id.
Qed.

Lemma setForwardedProto_shape req :
  setForwardedProto req = withHeader (Header (setForwardedProto req)) req.
Proof.
  unfold setForwardedProto.
  destruct (Header req !! "X-Forwarded-Proto"); [by rewrite withHeader_id |].
  destruct (TLS req); [| destruct (decide _)]; done.
Qed.

Lemma setForwardedHost_shape originalHost req :
  setForwardedHost originalHost req =
  withHeader (Header (setForwardedHost originalHost req)) req.
Proof.
  unfold setForwardedHost.
  destruct (Header req !! "X-Forwarded-Host"); [by rewrite withHeader_id | done].
Qed.

(** What [setForwardedFor] leaves under the key [X-Forwarded-For]. *)
Lemma setForwardedFor_lookup req :
  Header (setForwardedFor req) !! "X-Forwarded-For" =
  if decide (Get (Header req) "X-Real-IP" <> "") then
    Some [Get (Header req) "X-Real-IP"]
  else
    match SplitHostPort (RemoteAddr req) with
    | ok (clientIP, _) =>
        Some [match Header req !! "X-Forwarded-For" with
              | Some prior => strings.Join prior ", " ++ ", " ++ clientIP
              | None => clientIP
              end]
    | err _ => Header req !! "X-Forwarded-For"
    end.
Proof.
  unfold setForwardedFor.
  destruct (decide _); [| destruct (SplitHostPort _) as [[ip port]|e]];
    cbn [Header withHeader]; try done;
    unfold Set_; rewrite canon_XForwardedFor; by rewrite lookup_insert_eq.
Qed.

(** The director is the composition of its blocks. *)
Lemma Director_request req :
  (Director req).1 =
  setForwardedHost (Host (stripHopByHop (originalDirector req)))
    (setForwardedProto
       (setForwardedFor
          (withHost (url.Host target) (stripHopByHop (originalDirector req))))).
Proof. reflexivity. Qed.

(** The header map on entry to the [X-Forwarded-For] block. *)
Lemma entry_lookup req k :
  Header (withHost (url.Host target) (stripHopByHop (originalDirector req))) !! k =
  if bool_decide (k ∈ ["Connection"; "Upgrade"; "Transfer-Encoding"])
  then None else Header req !! k.
Proof.
  cbn [Header withHost]. rewrite stripHopByHop_lookup.
  by destruct (originalDirector_frame req) as (_ & _ & -> & _).
Qed.

Lemma entry_RemoteAddr req :
  RemoteAddr (withHost (url.Host target) (stripHopByHop (originalDirector req)))
  = RemoteAddr req.
Proof.
  cbn. by destruct (originalDirector_frame req) as (_ & _ & _ & _ & _ & _ & -> & _).
Qed.

Lemma entry_TLS req :
  TLS (withHost (url.Host target) (stripHopByHop (originalDirector req)))
  = TLS req.
Proof.
  cbn. by destruct (originalDirector_frame req) as (_ & _ & _ & _ & _ & _ & _ & _ & ->).
Qed.

Lemma entry_Get req key :
  CanonicalMIMEHeaderKey key ∉ ["Connection"; "Upgrade"; "Transfer-Encoding"] ->
  Get (Header (withHost (url.Host target) (stripHopByHop (originalDirector req)))) key
  = Get (Header req) key.
Proof.
  intros Hk. apply Get_ext. rewrite entry_lookup. by rewrite bool_decide_eq_false_2.
Qed.

Lemma entry_XRealIP req :
  Get (Header (withHost (url.Host target) (stripHopByHop (originalDirector req))))
    "X-Real-IP" = Get (Header req) "X-Real-IP".
Proof. apply entry_Get. rewrite canon_XRealIP. listed. Qed.

(** The director's [X-Forwarded-For], in terms of the inbound request. *)
Lemma Director_XForwardedFor req :
  Header (Director req).1 !! "X-Forwarded-For" =
  if decide (Get (Header req) "X-Real-IP" <> "") then
    Some [Get (Header req) "X-Real-IP"]
  else
    match SplitHostPort (RemoteAddr req) with
    | ok (clientIP, _) =>
        Some [match Header req !! "X-Forwarded-For" with
              | Some prior => strings.Join prior ", " ++ ", " ++ clientIP
              | None => clientIP
              end]
    | err _ => Header req !! "X-Forwarded-For"
    end.
Proof.
  rewrite Director_request.
  rewrite setForwardedHost_lookup_ne, setForwardedProto_lookup_ne by keys.
  rewrite setForwardedFor_lookup, entry_XRealIP, entry_RemoteAddr.
  rewrite entry_lookup. by rewrite bool_decide_eq_false_2 by listed.
Qed.

(** The director closure taken alone: when it returns,
    [X-Forwarded-For] holds the [X-Real-IP] value alone when that
    header is non-empty.
    Otherwise, provided the remote address splits into host and port, it
    holds the prior values joined by [", "], then [", "], then the host;
    and the host alone when the request carried no [X-Forwarded-For]. *)
Lemma Director_forwarded_for req :
  let out := Header (Director req).1 in
  (Get (Header req) "X-Real-IP" <> "" ->
   out !! "X-Forwarded-For" = Some [Get (Header req) "X-Real-IP"]) /\
  (Get (Header req) "X-Real-IP" = "" ->
   forall clientIP port,
     SplitHostPort (RemoteAddr req) = ok (clientIP, port) ->
     (forall prior, Header req !! "X-Forwarded-For" = Some prior ->
        out !! "X-Forwarded-For"
        = Some [strings.Join prior ", " ++ ", " ++ clientIP]) /\
     (forall V, Header req !! "X-Forwarded-For" = Some [V] ->
        Get out "X-Forwarded-For" = V ++ ", " ++ clientIP) /\
     (Header req !! "X-Forwarded-For" = None ->
        out !! "X-Forwarded-For" = Some [clientIP] /\
        Get out "X-Forwarded-For" = clientIP)).
Proof.
  cbn zeta. split.
  - intros Hxri. rewrite Director_XForwardedFor. by rewrite decide_True.
  - intros Hxri clientIP port Hsplit.
    assert (Hout : forall o, Header req !! "X-Forwarded-For" = o ->
              Header (Director req).1 !! "X-Forwarded-For" =
              Some [match o with
                    | Some prior => strings.Join prior ", " ++ ", " ++ clientIP
                    | None => clientIP
                    end]).
    { intros o <-. rewrite Director_XForwardedFor.
      rewrite decide_False by (by intros []). by rewrite Hsplit. }
    split; [| split].
    + intros prior Hprior. by apply (Hout (Some prior)).
    + intros V HV. eapply Get_Some. rewrite canon_XForwardedFor.
      by rewrite (Hout _ HV).
    + intros Hnone. split; [by apply (Hout None) |].
      eapply Get_Some. rewrite canon_XForwardedFor. by rewrite (Hout _ Hnone).
Qed.

(** *** From the director to the transport *)

Lemma Director_hop_by_hop_gone req k :
  k ∈ ["Connection"; "Upgrade"; "Transfer-Encoding"] ->
  Header (Director req).1 !! k = None.
Proof.
  intros Hk. rewrite Director_request.
  rewrite setForwardedHost_lookup_ne, setForwardedProto_lookup_ne,
    setForwardedFor_lookup_ne
    by (intros ->; repeat (apply elem_of_cons in Hk as [Hk|Hk]; [done |]);
        by apply elem_of_nil in Hk).
  rewrite entry_lookup. by rewrite bool_decide_eq_true_2.
Qed.

Lemma fold_Del_lookup (l : list string) (h : MIMEHeader) k :
  k ∉ map CanonicalMIMEHeaderKey l ->
  fold_left Del l h !! k = h !! k.
Proof.
  revert h. induction l as [|key l IH]; intros h Hk; [done |].
  cbn [fold_left]. rewrite IH.
  - unfold Del. rewrite lookup_delete_ne; [done |].
    intros <-. apply Hk. cbn [map]. apply elem_of_cons. by left.
  - intros Hin. apply Hk. cbn [map]. apply elem_of_cons. by right.
Qed.

(** Without a [Connection] header, [removeHopByHopHeaders] deletes the
    nine fixed keys and leaves every other key as it was. *)
Lemma removeHopByHopHeaders_lookup (h : MIMEHeader) k :
  h !! "Connection" = None ->
  k ∉ reverseproxy.hopHeaders ->
  reverseproxy.removeHopByHopHeaders h !! k = h !! k.
Proof.
  intros Hconn Hk. unfold reverseproxy.removeHopByHopHeaders, reverseproxy.values.
  rewrite Hconn. cbn [from_option id fold_left].
  apply fold_Del_lookup.
  by replace (map CanonicalMIMEHeaderKey reverseproxy.hopHeaders)
    with reverseproxy.hopHeaders by (by vm_compute).
Qed.

(** What [ServeHTTP] hands to the transport under [X-Forwarded-For],
    for a director that leaves no [Connection] header: the client
    address is appended to what the director left there. *)
Lemma outboundRequest_XForwardedFor (D : Request -> Request) req :
  Header (D (reverseproxy.clone req)) !! "Connection" = None ->
  exists outreq,
    reverseproxy.outboundRequest D req = reverseproxy.Outbound outreq /\
    Header outreq !! "X-Forwarded-For" =
    match SplitHostPort (RemoteAddr req) with
    | ok (clientIP, _) =>
        match Header (D (reverseproxy.clone req)) !! "X-Forwarded-For" with
        | Some [] => Some []
        | Some prior => Some [strings.Join prior ", " ++ ", " ++ clientIP]
        | None => Some [clientIP]
        end
    | err _ => Header (D (reverseproxy.clone req)) !! "X-Forwarded-For"
    end.
Proof.
  intros Hconn.
  unfold reverseproxy.outboundRequest, reverseproxy.upgradeType,
    reverseproxy.values.
  rewrite Hconn.
  cbn [from_option id reverseproxy.HeaderValuesContainsToken existsb negb
       reverseproxy.IsPrint].
  rewrite (decide_False (P := "" <> "")) by (by intros []).
  eexists. split; [reflexivity |]. cbn [Header withHeader].
  set (d := D (reverseproxy.clone req)).
  set (h1 := reverseproxy.removeHopByHopHeaders (Header d)).
  set (h2 := if reverseproxy.HeaderValuesContainsToken _ "trailers"
             then Set_ h1 "Te" "trailers" else h1).
  assert (H2 : h2 !! "X-Forwarded-For" = Header d !! "X-Forwarded-For").
  { assert (H1 : h1 !! "X-Forwarded-For" = Header d !! "X-Forwarded-For").
    { apply removeHopByHopHeaders_lookup; [done |].
      intros Hin. apply (bool_decide_pack _) in Hin. by vm_compute in Hin. }
    subst h2. destruct (reverseproxy.HeaderValuesContainsToken _ _); [| done].
    unfold Set_. rewrite lookup_insert_ne; [done |].
    intros Hkeys. by vm_compute in Hkeys. }
  set (h3 := match SplitHostPort (RemoteAddr req) with
             | ok (clientIP, _) => _
             | err _ => h2
             end).
  assert (H3 : h3 !! "X-Forwarded-For" =
               match SplitHostPort (RemoteAddr req) with
               | ok (clientIP, _) =>
                   match Header d !! "X-Forwarded-For" with
                   | Some [] => Some []
                   | Some prior =>
                       Some [strings.Join prior ", " ++ ", " ++ clientIP]
                   | None => Some [clientIP]
                   end
               | err _ => Header d !! "X-Forwarded-For"
               end).
  { subst h3. destruct (SplitHostPort (RemoteAddr req)) as [[clientIP port]|e];
      [| done].
    rewrite <- H2.
    destruct (h2 !! "X-Forwarded-For") as [[|v prior]|] eqn:Hprior;
      [done | |];
      unfold Set_; rewrite canon_XForwardedFor; by rewrite lookup_insert_eq. }
  rewrite <- H3.
  destruct (h3 !! "User-Agent"); [done |].
  unfold Set_. rewrite lookup_insert_ne; [done |].
  intros Hkeys. by vm_compute in Hkeys.
Qed.

Lemma append_longer (a b : string) : b <> "" -> a ++ b <> a.
Proof.
  intros Hb. induction a as [|x a IH]; [exact Hb |].
  change (String x a ++ b) with (String x (a ++ b)).
  intros Heq. apply IH. by injection Heq.
Qed.

(** ** The claims *)

(** C1.  What the backend is sent under [X-Forwarded-For] is not what
    the claim states.  Whenever the remote address splits into host and
    port, which it does for every request that arrives over TCP, the
    transport is handed a request and its [X-Forwarded-For] is the value
    the claim states followed once more by [", "] and the host: the
    reverse proxy appends the client address again after the director
    has set the header.  The claimed value is the [X-Real-IP] value when
    that header is non-empty, else the prior values joined by [", "]
    followed by [", "] and the host, else the host alone. *)
Theorem C1_client_address_forwarded_twice req clientIP port :
  SplitHostPort (RemoteAddr req) = ok (clientIP, port) ->
  let claimed :=
    if decide (Get (Header req) "X-Real-IP" <> "")
    then Get (Header req) "X-Real-IP"
    else match Header req !! "X-Forwarded-For" with
         | Some prior => strings.Join prior ", " ++ ", " ++ clientIP
         | None => clientIP
         end in
  exists outreq,
    forwarded req = reverseproxy.Outbound outreq /\
    Header outreq !! "X-Forwarded-For" = Some [claimed ++ ", " ++ clientIP] /\
    Get (Header outreq) "X-Forwarded-For" = claimed ++ ", " ++ clientIP /\
    Get (Header outreq) "X-Forwarded-For" <> claimed.
Proof.
  intros Hsplit claimed.
  destruct (outboundRequest_XForwardedFor (fun r => (Director r).1) req)
    as (outreq & Hout & Hxff).
  { apply Director_hop_by_hop_gone. listed. }
  exists outreq. split; [exact Hout |].
  assert (Hval : Header outreq !! "X-Forwarded-For"
                 = Some [claimed ++ ", " ++ clientIP]).
  { rewrite Hxff, Hsplit. cbn beta. rewrite Director_XForwardedFor.
    cbn [reverseproxy.clone Header RemoteAddr].
    subst claimed. destruct (decide _); [done |]. by rewrite Hsplit. }
  assert (Hget : Get (Header outreq) "X-Forwarded-For"
                 = claimed ++ ", " ++ clientIP).
  { eapply Get_Some. rewrite canon_XForwardedFor. exact Hval. }
  split; [exact Hval | split; [exact Hget |]].
  rewrite Hget. by apply append_longer.
Qed.

(** C9.  With no [X-Real-IP] value and a remote address that does not
    split into host and port, the director leaves [X-Forwarded-For] as
    it arrived: not set, not overwritten, not appended to. *)
Theorem C9_unsplittable_address_keeps_chain req e :
  Get (Header req) "X-Real-IP" = "" ->
  SplitHostPort (RemoteAddr req) = err e ->
  Header (Director req).1 !! "X-Forwarded-For"
  = Header req !! "X-Forwarded-For".
Proof.
  intros Hxri Hsplit. rewrite Director_XForwardedFor.
  rewrite decide_False by (by intros []). by rewrite Hsplit.
Qed.

Lemma setForwardedProto_lookup req :
  Header (setForwardedProto req) !! "X-Forwarded-Proto" =
  match Header req !! "X-Forwarded-Proto" with
  | Some vs => Some vs
  | None => Some [match TLS req with Some _ => "https" | None => "http" end]
  end.
Proof.
  unfold setForwardedProto.
  destruct (Header req !! "X-Forwarded-Proto") as [vs|] eqn:Hprior; [done |].
  destruct (TLS req).
  - cbn [Header withHeader]. unfold Set_. rewrite canon_XForwardedProto.
    by rewrite lookup_insert_eq.
  - rewrite decide_False.
    + cbn [Header withHeader]. unfold Set_. rewrite canon_XForwardedProto.
      by rewrite lookup_insert_eq.
    + intros Hproto. apply Hproto, Get_None.
      by rewrite canon_XForwardedProto.
Qed.

Lemma setForwardedHost_lookup originalHost req :
  Header (setForwardedHost originalHost req) !! "X-Forwarded-Host" =
  match Header req !! "X-Forwarded-Host" with
  | Some vs => Some vs
  | None => Some [originalHost]
  end.
Proof.
  unfold setForwardedHost.
  destruct (Header req !! "X-Forwarded-Host") as [vs|] eqn:Hprior; [done |].
  cbn [Header withHeader]. unfold Set_. rewrite canon_XForwardedHost.
  by rewrite lookup_insert_eq.
Qed.

Lemma Director_XForwardedProto req :
  Header (Director req).1 !! "X-Forwarded-Proto" =
  match Header req !! "X-Forwarded-Proto" with
  | Some vs => Some vs
  | None => Some [match TLS req with Some _ => "https" | None => "http" end]
  end.
Proof.
  rewrite Director_request.
  rewrite setForwardedHost_lookup_ne by keys.
  rewrite setForwardedProto_lookup.
  rewrite setForwardedFor_lookup_ne by keys.
  rewrite setForwardedFor_shape. cbn [TLS withHeader].
  rewrite entry_TLS, entry_lookup.
  by rewrite bool_decide_eq_false_2 by listed.
Qed.

Lemma entry_Host req : Host (stripHopByHop (originalDirector req)) = Host req.
Proof.
  cbn. by destruct (originalDirector_frame req) as (_ & _ & _ & _ & _ & -> & _).
Qed.

Lemma Director_XForwardedHost req :
  Header (Director req).1 !! "X-Forwarded-Host" =
  match Header req !! "X-Forwarded-Host" with
  | Some vs => Some vs
  | None => Some [Host req]
  end.
Proof.
  rewrite Director_request, setForwardedHost_lookup, entry_Host.
  rewrite setForwardedProto_lookup_ne, setForwardedFor_lookup_ne by keys.
  rewrite entry_lookup. by rewrite bool_decide_eq_false_2 by listed.
Qed.

(** The director changes the header map and the routing host of what
    the single-host director returned, and nothing else. *)
Lemma Director_shape req :
  (Director req).1 =
  withHeader (Header (Director req).1)
    (withHost (url.Host target) (originalDirector req)).
Proof.
  rewrite Director_request.
  generalize (Host (stripHopByHop (originalDirector req))). intros originalHost.
  remember (withHost (url.Host target) (stripHopByHop (originalDirector req)))
    as e eqn:He.
  remember (setForwardedFor e) as a eqn:Ha.
  remember (setForwardedProto a) as b eqn:Hb.
  remember (setForwardedHost originalHost b) as c eqn:Hc.
  pose proof (setForwardedHost_shape originalHost b) as Sc. rewrite <- Hc in Sc.
  pose proof (setForwardedProto_shape a) as Sb. rewrite <- Hb in Sb.
  pose proof (setForwardedFor_shape e) as Sa. rewrite <- Ha in Sa.
  clear Ha Hb Hc.
  rewrite Sc at 1. rewrite Sb. rewrite Sa. by rewrite He.
Qed.

(** C2.  A request that already has [X-Forwarded-Proto] keeps its
    values; one without it gets exactly ["https"] when the inbound
    connection was TLS and exactly ["http"] otherwise. *)
Theorem C2_forwarded_proto req :
  let out := Header (Director req).1 in
  (forall vs, Header req !! "X-Forwarded-Proto" = Some vs ->
     out !! "X-Forwarded-Proto" = Some vs /\
     Get out "X-Forwarded-Proto" = Get (Header req) "X-Forwarded-Proto") /\
  (Header req !! "X-Forwarded-Proto" = None ->
     (forall cs, TLS req = Some cs ->
        out !! "X-Forwarded-Proto" = Some ["https"] /\
        Get out "X-Forwarded-Proto" = "https") /\
     (TLS req = None ->
        out !! "X-Forwarded-Proto" = Some ["http"] /\
        Get out "X-Forwarded-Proto" = "http")).
Proof.
  cbn zeta. split.
  - intros vs Hprior. split.
    + rewrite Director_XForwardedProto. by rewrite Hprior.
    + apply Get_ext. rewrite canon_XForwardedProto.
      rewrite Director_XForwardedProto. by rewrite Hprior.
  - intros Hnone.
    assert (Hout : Header (Director req).1 !! "X-Forwarded-Proto" =
              Some [match TLS req with Some _ => "https" | None => "http" end]).
    { rewrite Director_XForwardedProto. by rewrite Hnone. }
    split.
    + intros cs Htls. rewrite Htls in Hout. split; [done |].
      eapply Get_Some. rewrite canon_XForwardedProto. exact Hout.
    + intros Htls. rewrite Htls in Hout. split; [done |].
      eapply Get_Some. rewrite canon_XForwardedProto. exact Hout.
Qed.

(** C3.  After the director has run the routing host is the target's
    host; [X-Forwarded-Host] is the host the request arrived with when
    the header was absent, and is kept as it was when present. *)
Theorem C3_host_rewrite req :
  let out := (Director req).1 in
  Host out = url.Host target /\
  (Header req !! "X-Forwarded-Host" = None ->
     Header out !! "X-Forwarded-Host" = Some [Host req] /\
     Get (Header out) "X-Forwarded-Host" = Host req) /\
  (forall vs, Header req !! "X-Forwarded-Host" = Some vs ->
     Header out !! "X-Forwarded-Host" = Some vs /\
     Get (Header out) "X-Forwarded-Host" = Get (Header req) "X-Forwarded-Host").
Proof.
  cbn zeta. split; [| split].
  - by rewrite Director_shape.
  - intros Hnone.
    assert (Hout : Header (Director req).1 !! "X-Forwarded-Host"
                   = Some [Host req]).
    { rewrite Director_XForwardedHost. by rewrite Hnone. }
    split; [done |]. eapply Get_Some. rewrite canon_XForwardedHost. exact Hout.
  - intros vs Hprior. split.
    + rewrite Director_XForwardedHost. by rewrite Hprior.
    + apply Get_ext. rewrite canon_XForwardedHost.
      rewrite Director_XForwardedHost. by rewrite Hprior.
Qed.

(** C4.  Whatever the inbound request carried, [Connection], [Upgrade]
    and [Transfer-Encoding] are absent once the director has run, under
    any spelling of their names. *)
Theorem C4_hop_by_hop_absent req key :
  let out := Header (Director req).1 in
  out !! "Connection" = None /\
  out !! "Upgrade" = None /\
  out !! "Transfer-Encoding" = None /\
  (CanonicalMIMEHeaderKey key ∈ ["Connection"; "Upgrade"; "Transfer-Encoding"]
   -> Get out key = "").
Proof.
  cbn zeta.
  assert (Hgone : forall k, k ∈ ["Connection"; "Upgrade"; "Transfer-Encoding"] ->
            Header (Director req).1 !! k = None).
  { intros k Hk. rewrite Director_request.
    rewrite setForwardedHost_lookup_ne, setForwardedProto_lookup_ne,
      setForwardedFor_lookup_ne
      by (intros ->; repeat (apply elem_of_cons in Hk as [Hk|Hk]; [done |]);
          by apply elem_of_nil in Hk).
    rewrite entry_lookup. by rewrite bool_decide_eq_true_2. }
  repeat split; try (apply Hgone; listed).
  intros Hkey. by apply Get_None, Hgone.
Qed.

(** C10.  The director changes the routing host, the six headers it
    names and the URL fields the single-host director assigns; the
    method, the body, the other request fields, the other URL fields and
    every other header are as they arrived. *)
Theorem C10_frame req :
  let out := (Director req).1 in
  Method out = Method req /\ Body out = Body req /\
  Proto out = Proto req /\ ContentLength out = ContentLength req /\
  RemoteAddr out = RemoteAddr req /\ RequestURI out = RequestURI req /\
  TLS out = TLS req /\
  (url.Opaque (URL out) = url.Opaque (URL req) /\
   url.User (URL out) = url.User (URL req) /\
   url.OmitHost (URL out) = url.OmitHost (URL req) /\
   url.ForceQuery (URL out) = url.ForceQuery (URL req) /\
   url.Fragment (URL out) = url.Fragment (URL req) /\
   url.RawFragment (URL out) = url.RawFragment (URL req)) /\
  (forall k,
     k ∉ ["Connection"; "Upgrade"; "Transfer-Encoding"; "X-Forwarded-For";
          "X-Forwarded-Proto"; "X-Forwarded-Host"] ->
     Header out !! k = Header req !! k).
Proof.
  cbn zeta. rewrite Director_shape. cbn [Method Body Proto ContentLength
    RemoteAddr RequestURI TLS URL Header withHeader withHost].
  destruct (originalDirector_frame req)
    as (-> & -> & _ & -> & -> & _ & -> & -> & ->).
  destruct (originalDirector_URL req) as (_ & _ & -> & -> & -> & -> & -> & ->).
  repeat split.
  intros k Hk. rewrite Director_request.
  rewrite setForwardedHost_lookup_ne, setForwardedProto_lookup_ne,
    setForwardedFor_lookup_ne by (intros ->; apply Hk; listed).
  rewrite entry_lookup. rewrite bool_decide_eq_false_2; [done |].
  intros Hhop. apply Hk.
  repeat (apply elem_of_cons in Hhop as [->|Hhop]; [listed |]).
  by apply elem_of_nil in Hhop.
Qed.

(** *** Splitting strings *)

Lemma append_cons b (s t : string) : String b s ++ t = String b (s ++ t).
Proof. reflexivity. Qed.

Lemma append_nil (t : string) : "" ++ t = t.
Proof. reflexivity. Qed.

Lemma append_assoc (a b c : string) : (a ++ b) ++ c = a ++ (b ++ c).
Proof.
  induction a as [|x a IH]; [done |]. by rewrite !append_cons, IH.
Qed.

Lemma drop_0 s : bytealg.drop 0 s = s.
Proof. by destruct s. Qed.

Lemma IndexByteString_split s c i :
  bytealg.IndexByteString s c = Some i ->
  s = bytealg.take i s ++ String c (bytealg.drop (S i) s).
Proof.
  revert i. induction s as [|b s IH]; intros i; cbn; [done |].
  destruct (Ascii.eqb_spec b c) as [->|Hbc].
  - intros [= <-]. by destruct s.
  - destruct (bytealg.IndexByteString s c) as [j|]; [| done].
    intros [= <-]. rewrite append_cons. f_equal. by apply IH.
Qed.

Lemma IndexByteString_take_S s c i :
  bytealg.IndexByteString s c = Some i ->
  bytealg.take (S i) s = bytealg.take i s ++ String c "".
Proof.
  revert i. induction s as [|b s IH]; intros i; cbn; [done |].
  destruct (Ascii.eqb_spec b c) as [->|Hbc].
  - intros [= <-]. by destruct s.
  - destruct (bytealg.IndexByteString s c) as [j|] eqn:Hj; [| done].
    intros [= <-]. rewrite append_cons. f_equal. by apply IH.
Qed.

Lemma LastIndexByteString_split s c i :
  bytealg.LastIndexByteString s c = Some i ->
  s = bytealg.take i s ++ String c (bytealg.drop (S i) s).
Proof.
  revert i. induction s as [|b s IH]; intros i; cbn; [done |].
  destruct (bytealg.LastIndexByteString s c) as [j|].
  - intros [= <-]. rewrite append_cons. f_equal. by apply IH.
  - destruct (Ascii.eqb_spec b c) as [->|Hbc]; [| done].
    intros [= <-]. by destruct s.
Qed.

(** [SplitHostPort] strips the port: what it accepts is the host, a
    colon and the port, the host between brackets or not. *)
Lemma SplitHostPort_ok hostport host port :
  SplitHostPort hostport = ok (host, port) ->
  hostport = host ++ ":" ++ port \/ hostport = "[" ++ host ++ "]:" ++ port.
Proof.
  unfold SplitHostPort, finish, addrErr.
  destruct (bytealg.LastIndexByteString hostport ":") as [i|] eqn:Hi; [| done].
  apply LastIndexByteString_split in Hi.
  destruct (decide _) as [Hopen|_].
  - destruct (bytealg.IndexByteString hostport "]") as [end_|] eqn:Hend;
      [| done].
    repeat (destruct (decide _); try done). subst i.
    repeat (destruct (hasByte _ _); try done).
    intros [= <- <-]. right.
    destruct hostport as [|b s]; [done |]. cbn in Hopen. injection Hopen as ->.
    cbn in Hend. destruct (bytealg.IndexByteString s "]") as [j|] eqn:Hj;
      [| done].
    injection Hend as <-.
    rewrite Hi at 1. cbn [bytealg.take].
    rewrite (IndexByteString_take_S _ _ _ Hj).
    unfold bytealg.slice. cbn [bytealg.drop].
    replace (S j - 1) with j by lia. rewrite drop_0.
    rewrite !append_cons, append_nil. f_equal.
    by rewrite append_assoc.
  - destruct (hasByte _ _); [done |].
    repeat (destruct (hasByte _ _); try done).
    intros [= <- <-]. by left.
Qed.

Lemma Split_head s sep :
  exists fs,
    strings.Split s sep =
    match bytealg.IndexByteString s sep with
    | Some i => bytealg.take i s
    | None => s
    end :: fs.
Proof.
  induction s as [|b s [fs IH]]; cbn; [by exists [] |].
  destruct (Ascii.eqb b sep); [by eexists |].
  rewrite IH. destruct (bytealg.IndexByteString s sep); by eexists.
Qed.

(** C5 (as amended).  [getRealIP] returns the [X-Real-IP] value when it
    is non-empty; else, when the [X-Forwarded-For] value is non-empty,
    what stands before its first comma, trimmed (blank or not); else the
    host of the remote address, the port stripped; and the remote
    address as it is when it does not split.  It is a total function:
    no request makes it fail. *)
Theorem C5_getRealIP req :
  let xri := Get (Header req) "X-Real-IP" in
  let xff := Get (Header req) "X-Forwarded-For" in
  (xri <> "" -> getRealIP req = xri) /\
  (xri = "" -> xff <> "" ->
   getRealIP req =
   TrimSpace match bytealg.IndexByteString xff "," with
             | Some i => bytealg.take i xff
             | None => xff
             end) /\
  (xri = "" -> xff = "" ->
   forall ip port, SplitHostPort (RemoteAddr req) = ok (ip, port) ->
     getRealIP req = ip /\
     (RemoteAddr req = ip ++ ":" ++ port \/
      RemoteAddr req = "[" ++ ip ++ "]:" ++ port)) /\
  (xri = "" -> xff = "" ->
   forall e, SplitHostPort (RemoteAddr req) = err e ->
     getRealIP req = RemoteAddr req).
Proof.
  cbn zeta. unfold getRealIP. split; [| split; [| split]].
  - intros Hxri. by rewrite decide_True.
  - intros Hxri Hxff. rewrite decide_False by (by intros []).
    rewrite decide_True by done.
    by destruct (Split_head (Get (Header req) "X-Forwarded-For") ",") as [fs ->].
  - intros Hxri Hxff ip port Hsplit. split; [| by apply SplitHostPort_ok].
    rewrite decide_False by (by intros []).
    rewrite decide_False by (by intros []). by rewrite Hsplit.
  - intros Hxri Hxff e Hsplit. rewrite decide_False by (by intros []).
    rewrite decide_False by (by intros []). by rewrite Hsplit.
Qed.

(** *** Applying one block twice *)

Lemma setForwardedProto_present req vs :
  Header req !! "X-Forwarded-Proto" = Some vs -> setForwardedProto req = req.
Proof. unfold setForwardedProto. by intros ->. Qed.

Lemma setForwardedHost_present originalHost req vs :
  Header req !! "X-Forwarded-Host" = Some vs ->
  setForwardedHost originalHost req = req.
Proof. unfold setForwardedHost. by intros ->. Qed.

Lemma setForwardedFor_XRealIP req :
  Get (Header (setForwardedFor req)) "X-Real-IP" = Get (Header req) "X-Real-IP".
Proof.
  apply Get_ext. rewrite canon_XRealIP. by apply setForwardedFor_lookup_ne.
Qed.

Lemma setForwardedFor_RemoteAddr req :
  RemoteAddr (setForwardedFor req) = RemoteAddr req.
Proof. by rewrite setForwardedFor_shape. Qed.

(** C6 (as amended).  Stripping the hop-by-hop headers, rewriting the
    host, setting [X-Forwarded-Proto] and setting [X-Forwarded-Host] are
    idempotent on the request.  The [X-Forwarded-For] block is
    idempotent when [X-Real-IP] is non-empty or the remote address does
    not split; otherwise a second application appends the host once
    more. *)
Theorem C6_blocks_applied_twice req originalHost :
  stripHopByHop (stripHopByHop req) = stripHopByHop req /\
  (rewriteHost (rewriteHost req).2).2 = (rewriteHost req).2 /\
  setForwardedProto (setForwardedProto req) = setForwardedProto req /\
  setForwardedHost originalHost (setForwardedHost originalHost req)
  = setForwardedHost originalHost req /\
  (Get (Header req) "X-Real-IP" <> "" \/
   (exists e, SplitHostPort (RemoteAddr req) = err e) ->
   setForwardedFor (setForwardedFor req) = setForwardedFor req) /\
  (Get (Header req) "X-Real-IP" = "" ->
   forall clientIP port v,
     SplitHostPort (RemoteAddr req) = ok (clientIP, port) ->
     Header (setForwardedFor req) !! "X-Forwarded-For" = Some [v] ->
     Header (setForwardedFor (setForwardedFor req)) !! "X-Forwarded-For"
     = Some [v ++ ", " ++ clientIP]).
Proof.
  repeat apply conj.
  - assert (Hh : Header (stripHopByHop (stripHopByHop req))
                 = Header (stripHopByHop req)).
    { apply map_eq. intros k. rewrite !stripHopByHop_lookup.
      by case_bool_decide. }
    change (stripHopByHop (stripHopByHop req))
      with (withHeader (Header (stripHopByHop (stripHopByHop req)))
              (stripHopByHop req)).
    by rewrite Hh.
  - reflexivity.
  - pose proof (setForwardedProto_lookup req) as Hl.
    destruct (Header req !! "X-Forwarded-Proto");
      by eapply setForwardedProto_present.
  - pose proof (setForwardedHost_lookup originalHost req) as Hl.
    destruct (Header req !! "X-Forwarded-Host");
      by eapply setForwardedHost_present.
  - intros Hcase. unfold setForwardedFor at 1.
    rewrite setForwardedFor_XRealIP, setForwardedFor_RemoteAddr.
    unfold setForwardedFor.
    destruct (decide (Get (Header req) "X-Real-IP" <> "")) as [Hxri|Hxri].
    + unfold withHeader, Set_. cbn. f_equal. by rewrite insert_insert_eq.
    + destruct Hcase as [Hc|[e He]]; [done |]. by rewrite He.
  - intros Hxri clientIP port v Hsplit Hv.
    rewrite setForwardedFor_lookup.
    rewrite setForwardedFor_XRealIP, setForwardedFor_RemoteAddr.
    rewrite decide_False by (by intros []). by rewrite Hsplit, Hv.
Qed.


(** ** Further properties of the program *)

(** *** The status-capturing writer *)

Lemma serve_app {W} `{httpError.ResponseWriter W} `{Unwinds W}
    (a b : list call) (w : W) :
  serve (a ++ b) w = serve b (serve a w).
Proof. apply fold_left_app. Qed.

Lemma serve_cons {W} `{httpError.ResponseWriter W} `{Unwinds W}
    (c : call) (calls : list call) (w : W) :
  serve (c :: calls) w = serve calls (step w c).
Proof. reflexivity. Qed.

Lemma perform_inner (rw : responseWriter) (c : call) :
  ResponseWriter (perform rw c) = perform (ResponseWriter rw) c.
Proof. by destruct c. Qed.

Lemma step_inner (rw : responseWriter) (c : call) :
  ResponseWriter (step rw c) = step (ResponseWriter rw) c.
Proof.
  unfold step, unwound, responseWriter_unwinds, response_unwinds.
  destruct (http.panicked (ResponseWriter rw)); [done |]. apply perform_inner.
Qed.

Lemma wrapper_inner (calls : list call) (rw : responseWriter) :
  ResponseWriter (serve calls rw) = serve calls (ResponseWriter rw).
Proof.
  revert rw. induction calls as [|c calls IH]; intros rw; [done |].
  by rewrite !serve_cons, IH, step_inner.
Qed.

(** X1.  The wrapper is transparent to the client: whatever calls a
    handler makes, the wrapped writer ends in the state the handler
    would have left it in without the wrapper. *)
Theorem X1_wrapper_transparent (calls : list call) (rw : responseWriter) :
  ResponseWriter (serve calls rw) = serve calls (ResponseWriter rw)
  /\ forall more, ResponseWriter (serve (calls ++ more) rw)
                  = serve more (ResponseWriter (serve calls rw)).
Proof.
  split; [apply wrapper_inner |].
  intros more. by rewrite serve_app, !wrapper_inner.
Qed.

Lemma statusCode_kept (calls : list call) (rw : responseWriter) :
  Forall (fun c => forall code, c <> callWriteHeader code) calls ->
  statusCode (serve calls rw) = statusCode rw.
Proof.
  intros Hcalls. revert rw.
  induction Hcalls as [|c calls Hc _ IH]; intros rw; [done |].
  rewrite serve_cons, IH. unfold step.
  destruct (unwound rw); [done |].
  destruct c as [key value|code|data]; try done. by destruct (Hc code).
Qed.

(** Once the status is out, no call changes it and none panics. *)
Lemma sent_status_sticky (calls : list call) (w : http.response) :
  http.wroteHeader w = true -> http.panicked w = false ->
  http.wroteHeader (serve calls w) = true /\
  http.status (serve calls w) = http.status w /\
  http.panicked (serve calls w) = false /\
  http.interim (serve calls w) = http.interim w.
Proof.
  revert w. induction calls as [|c calls IH]; intros w Hw Hp; [done |].
  rewrite serve_cons.
  assert (Hc : http.wroteHeader (step w c) = true /\
               http.status (step w c) = http.status w /\
               http.panicked (step w c) = false /\
               http.interim (step w c) = http.interim w).
  { unfold step, unwound, response_unwinds. rewrite Hp.
    destruct c as [key value|code|data]; cbn;
      unfold http.Write, http.WriteHeader; rewrite ?Hw; [done | done |].
    destruct (decide (data = "")); [done |].
    by destruct (http.bodyAllowedForStatus (http.status w)). }
  destruct Hc as (Hwrote & Hstatus & Hpanic & Hinterim).
  destruct (IH _ Hwrote Hpanic) as (-> & -> & -> & ->). by rewrite Hstatus.
Qed.

(** Setting headers sends nothing. *)
Lemma sets_send_nothing (calls : list call) (w : http.response) :
  Forall (fun c => exists key value, c = callSet key value) calls ->
  http.wroteHeader (serve calls w) = http.wroteHeader w /\
  http.panicked (serve calls w) = http.panicked w /\
  http.interim (serve calls w) = http.interim w.
Proof.
  intros Hcalls. revert w.
  induction Hcalls as [|c calls (key & value & ->) _ IH]; intros w; [done |].
  rewrite serve_cons. destruct (IH (step w (callSet key value))) as (-> & -> & ->).
  unfold step, unwound, response_unwinds.
  by destruct (http.panicked w) eqn:Hp.
Qed.

(** The first call that sends something, on a writer nothing was sent
    to: [WriteHeader] with a code that is a status sends it, [Write]
    sends 200. *)
Lemma first_status (pre : list call) (c : call) (sent : Z)
    (w : http.response) :
  http.wroteHeader w = false -> http.panicked w = false ->
  Forall (fun c => exists key value, c = callSet key value) pre ->
  (c = callWriteHeader sent /\ http.checkWriteHeaderCode sent = true /\
   http.informational sent = false) \/
  (sent = http.StatusOK /\ exists data, c = callWrite data) ->
  http.wroteHeader (serve (pre ++ [c]) w) = true /\
  http.status (serve (pre ++ [c]) w) = sent /\
  http.panicked (serve (pre ++ [c]) w) = false.
Proof.
  intros Hw Hp Hpre Hc. rewrite serve_app.
  destruct (sets_send_nothing pre w Hpre) as (Hw' & Hp' & _).
  rewrite Hw in Hw'. rewrite Hp in Hp'.
  generalize dependent (serve pre w). intros w1 Hw1 Hp1.
  cbn [serve fold_left]. unfold step, unwound, response_unwinds. rewrite Hp1.
  destruct Hc as [(-> & Hcheck & Hinfo) | (-> & data & ->)]; cbn.
  - unfold http.WriteHeader. by rewrite Hw1, Hcheck, Hinfo.
  - unfold http.Write, http.WriteHeader. rewrite Hw1. cbn.
    destruct (decide (data = "")); [done |]. by cbn.
Qed.

(** An interim response, then the first write. *)
Lemma interim_then_write (w : http.response) (info : Z) (data : string) :
  http.wroteHeader w = false -> http.panicked w = false ->
  http.informational info = true ->
  let w2 := serve [callWriteHeader info; callWrite data] w in
  http.wroteHeader w2 = true /\ http.status w2 = http.StatusOK /\
  http.panicked w2 = false /\
  http.interim w2 = (http.interim w ++ [info])%list.
Proof.
  intros Hw Hp Hinfo.
  assert (Hcheck : http.checkWriteHeaderCode info = true).
  { unfold http.informational, http.StatusSwitchingProtocols in Hinfo.
    unfold http.checkWriteHeaderCode. lia. }
  destruct w as [h wrote st body sofar pan]. cbn in Hw, Hp. subst wrote pan.
  assert (Hfirst :
    step (http.mkResponse h false st body sofar false) (callWriteHeader info)
    = http.mkResponse h false st body (sofar ++ [info]) false).
  { unfold step, unwound, response_unwinds. cbn [http.panicked perform].
    change (http.WriteHeader (http.mkResponse h false st body sofar false) info
            = http.mkResponse h false st body (sofar ++ [info]) false).
    unfold http.WriteHeader. cbn [http.wroteHeader]. by rewrite Hcheck, Hinfo. }
  cbn zeta. rewrite !serve_cons, Hfirst. cbn.
  unfold http.Write, http.WriteHeader. cbn.
  destruct (decide (data = "")); by cbn.
Qed.

Lemma statusCode_last (before after : list call) (code : Z)
    (rw : responseWriter) :
  http.panicked (serve before (ResponseWriter rw)) = false ->
  Forall (fun c => forall code, c <> callWriteHeader code) after ->
  statusCode (serve (before ++ callWriteHeader code :: after) rw) = code.
Proof.
  intros Hp Hafter. rewrite serve_app, serve_cons, statusCode_kept by done.
  unfold step, unwound, responseWriter_unwinds.
  by rewrite wrapper_inner, Hp.
Qed.

Lemma sets_are_not_WriteHeader (calls : list call) :
  Forall (fun c => exists key value, c = callSet key value) calls ->
  Forall (fun c => forall code, c <> callWriteHeader code) calls.
Proof.
  intros Hcalls. eapply Forall_impl; [exact Hcalls |].
  by intros c (key & value & ->) code.
Qed.

(** X2.  On a writer nothing was sent to, a handler that sets headers,
    calls [WriteHeader(code)] once with a code that is a status (three
    digits, not an interim 1xx) and then only writes: the captured
    status is the status sent.  A handler that never calls
    [WriteHeader] but writes: the client is sent 200 and the captured
    status is still the one the wrapper was created with (200 in
    [logMiddleware]). *)
Theorem X2_captured_status_is_sent (pre post : list call) (code : Z)
    (data : string) (rw : responseWriter) :
  http.wroteHeader (ResponseWriter rw) = false ->
  http.panicked (ResponseWriter rw) = false ->
  Forall (fun c => exists key value, c = callSet key value) pre ->
  Forall (fun c => forall code, c <> callWriteHeader code) post ->
  (http.checkWriteHeaderCode code = true ->
   http.informational code = false ->
   let out := serve (pre ++ callWriteHeader code :: post) rw in
   statusCode out = code /\ http.status (ResponseWriter out) = code) /\
  (let out := serve (pre ++ callWrite data :: post) rw in
   statusCode out = statusCode rw /\
   http.status (ResponseWriter out) = http.StatusOK).
Proof.
  intros Hfresh Hsound Hpre Hpost.
  destruct (sets_send_nothing pre (ResponseWriter rw) Hpre) as (_ & Hquiet & _).
  rewrite Hsound in Hquiet. split.
  - intros Hcheck Hinfo. cbn zeta. split; [by apply statusCode_last |].
    rewrite wrapper_inner.
    change (pre ++ callWriteHeader code :: post)%list
      with (pre ++ [callWriteHeader code] ++ post)%list.
    rewrite app_assoc, serve_app.
    destruct (first_status pre (callWriteHeader code) code _ Hfresh Hsound Hpre)
      as (Hwrote & Hstatus & Hpanic); [by left |].
    destruct (sent_status_sticky post _ Hwrote Hpanic) as (_ & -> & _).
    exact Hstatus.
  - cbn zeta. split.
    + apply statusCode_kept, Forall_app. split;
        [by apply sets_are_not_WriteHeader | by constructor].
    + rewrite wrapper_inner.
      change (pre ++ callWrite data :: post)%list
        with (pre ++ [callWrite data] ++ post)%list.
      rewrite app_assoc, serve_app.
      destruct (first_status pre (callWrite data) http.StatusOK _ Hfresh Hsound
                  Hpre) as (Hwrote & Hstatus & Hpanic); [right; by eauto |].
      destruct (sent_status_sticky post _ Hwrote Hpanic) as (_ & -> & _).
      exact Hstatus.
Qed.

(** X3.  The captured status need not be the status sent.  After
    [WriteHeader(first)], [first] a status, and later
    [WriteHeader(last)], the client has been sent [first] and the
    captured status is [last].  After a [Write] and later
    [WriteHeader(last)], the client has been sent 200 and the captured
    status is [last].  After [WriteHeader(info)] with an interim 1xx
    code and then a [Write], the client has been sent [info] as an
    interim response and 200 as the status, and the captured status is
    [info].  (Every code passed is one of three digits.) *)
Theorem X3_captured_status_follows_last_call (pre mid post : list call)
    (first last info : Z) (data : string) (rw : responseWriter) :
  http.wroteHeader (ResponseWriter rw) = false ->
  http.panicked (ResponseWriter rw) = false ->
  Forall (fun c => exists key value, c = callSet key value) pre ->
  Forall (fun c => forall code, c = callWriteHeader code ->
                   http.checkWriteHeaderCode code = true) mid ->
  Forall (fun c => forall code, c <> callWriteHeader code) post ->
  http.checkWriteHeaderCode last = true ->
  (http.checkWriteHeaderCode first = true ->
   http.informational first = false ->
   let out :=
     serve (pre ++ callWriteHeader first :: mid ++ callWriteHeader last :: post)
       rw in
   http.status (ResponseWriter out) = first /\ statusCode out = last) /\
  (let out :=
     serve (pre ++ callWrite data :: mid ++ callWriteHeader last :: post) rw in
   http.status (ResponseWriter out) = http.StatusOK /\ statusCode out = last) /\
  (http.informational info = true ->
   let out := serve (pre ++ callWriteHeader info :: callWrite data :: post) rw in
   http.status (ResponseWriter out) = http.StatusOK /\
   http.interim (ResponseWriter out)
   = (http.interim (ResponseWriter rw) ++ [info])%list /\
   statusCode out = info).
Proof.
  intros Hfresh Hsound Hpre _ Hpost _.
  assert (Hlater : forall c sent rest,
    (c = callWriteHeader sent /\ http.checkWriteHeaderCode sent = true /\
     http.informational sent = false) \/
    (sent = http.StatusOK /\ exists data, c = callWrite data) ->
    http.status (serve (pre ++ c :: rest) (ResponseWriter rw)) = sent /\
    forall upto, http.panicked (serve (pre ++ c :: upto) (ResponseWriter rw))
                 = false).
  { intros c sent rest Hc.
    destruct (first_status pre c sent _ Hfresh Hsound Hpre Hc)
      as (Hwrote & Hstatus & Hpanic).
    split; [| intros upto];
      change (pre ++ c :: ?l)%list with (pre ++ [c] ++ l)%list;
      rewrite app_assoc, serve_app;
      [destruct (sent_status_sticky rest _ Hwrote Hpanic) as (_ & -> & _)
      |destruct (sent_status_sticky upto _ Hwrote Hpanic) as (_ & _ & -> & _)];
      done. }
  split; [| split].
  - intros Hcheck Hinfo. cbn zeta.
    destruct (Hlater (callWriteHeader first) first
                (mid ++ callWriteHeader last :: post)%list) as [Hsent Hpanic];
      [by left |].
    split; [by rewrite wrapper_inner |].
    rewrite app_comm_cons, app_assoc. apply statusCode_last; [| done].
    apply Hpanic.
  - cbn zeta.
    destruct (Hlater (callWrite data) http.StatusOK
                (mid ++ callWriteHeader last :: post)%list) as [Hsent Hpanic];
      [right; by eauto |].
    split; [by rewrite wrapper_inner |].
    rewrite app_comm_cons, app_assoc. apply statusCode_last; [| done].
    apply Hpanic.
  - intros Hinfo. cbn zeta.
    destruct (sets_send_nothing pre (ResponseWriter rw) Hpre)
      as (Hquiet & Hcalm & Hnone).
    rewrite Hfresh in Hquiet. rewrite Hsound in Hcalm.
    pose proof (interim_then_write (serve pre (ResponseWriter rw)) info data
                  Hquiet Hcalm Hinfo) as Hstart.
    cbn zeta in Hstart. rewrite Hnone, <- serve_app in Hstart.
    destruct Hstart as (Hwrote & Hstatus & Hpanic & Hinterim).
    destruct (sent_status_sticky post _ Hwrote Hpanic) as (_ & Hs & _ & Hi).
    assert (Hlist :
      serve (pre ++ callWriteHeader info :: callWrite data :: post)
        (ResponseWriter rw)
      = serve post
          (serve (pre ++ [callWriteHeader info; callWrite data])
             (ResponseWriter rw))).
    { by rewrite <- serve_app, <- app_assoc. }
    rewrite wrapper_inner, Hlist, Hs, Hi.
    split; [exact Hstatus | split; [exact Hinterim |]].
    apply statusCode_last; [exact Hcalm | by constructor].
Qed.

(** *** The logging middleware *)


(** X5.  The status [logMiddleware] logs is the status the client was
    sent, for a handler that sets headers, calls [WriteHeader(code)]
    once with a code that is a status (three digits, not an interim
    1xx) and then only writes, and for one that writes without calling
    [WriteHeader] (200). *)
Theorem X5_logMiddleware_logs_sent_status (next : Handler)
    (w : http.response) (r : Request) (pre post : list call) :
  http.wroteHeader w = false ->
  http.panicked w = false ->
  Forall (fun c => exists key value, c = callSet key value) pre ->
  Forall (fun c => forall code, c <> callWriteHeader code) post ->
  (forall code,
     http.checkWriteHeaderCode code = true ->
     http.informational code = false ->
     (next r).1 = (pre ++ callWriteHeader code :: post)%list ->
     http.status (logMiddleware next w r).1 = code /\
     last (logMiddleware next w r).2
     = Some (Printf "Response: %s %s -> %d"
               [Method r; url.Path (URL r); Itoa code])) /\
  (forall data, (next r).1 = (pre ++ callWrite data :: post)%list ->
     http.status (logMiddleware next w r).1 = 200%Z /\
     last (logMiddleware next w r).2
     = Some (Printf "Response: %s %s -> %d"
               [Method r; url.Path (URL r); "200"])).
Proof.
  intros Hfresh Hsound Hpre Hpost.
  destruct (sets_send_nothing pre w Hpre) as (_ & Hcalm & _).
  rewrite Hsound in Hcalm.
  unfold logMiddleware, ServeHTTP. destruct (next r) as [calls lines].
  cbn [fst snd]. split.
  - intros code Hcheck Hinfo ->. rewrite wrapper_inner. cbn [ResponseWriter].
    destruct (first_status pre (callWriteHeader code) code w Hfresh Hsound Hpre)
      as (Hwrote & Hstatus & Hpanic); [by left |].
    destruct (sent_status_sticky post _ Hwrote Hpanic) as (_ & Hkept & _).
    split.
    + change (pre ++ callWriteHeader code :: post)%list
        with (pre ++ [callWriteHeader code] ++ post)%list.
      by rewrite app_assoc, serve_app, Hkept.
    + rewrite app_comm_cons, last_snoc. by rewrite statusCode_last.
  - intros data ->. rewrite wrapper_inner. cbn [ResponseWriter].
    destruct (first_status pre (callWrite data) StatusOK w Hfresh Hsound Hpre)
      as (Hwrote & Hstatus & Hpanic); [right; by eauto |].
    destruct (sent_status_sticky post _ Hwrote Hpanic) as (_ & Hkept & _).
    split.
    + change (pre ++ callWrite data :: post)%list
        with (pre ++ [callWrite data] ++ post)%list.
      by rewrite app_assoc, serve_app, Hkept.
    + rewrite app_comm_cons, last_snoc.
      rewrite statusCode_kept; [done |].
      apply Forall_app. split;
        [by apply sets_are_not_WriteHeader | by constructor].
Qed.

(** *** Addresses that split, and addresses that do not *)

Lemma length_append (a b : string) :
  String.length (a ++ b) = String.length a + String.length b.
Proof.
  induction a as [|x a IH]; [done |]. rewrite append_cons. cbn. by rewrite IH.
Qed.

Lemma take_append (a b : string) : bytealg.take (String.length a) (a ++ b) = a.
Proof.
  induction a as [|x a IH]; [by destruct b |].
  rewrite append_cons. cbn. by rewrite IH.
Qed.

Lemma drop_append (a b : string) : bytealg.drop (String.length a) (a ++ b) = b.
Proof.
  induction a as [|x a IH]; [by rewrite append_nil, drop_0 |].
  rewrite append_cons. by cbn.
Qed.

Lemma drop_append_S (a b : string) c :
  bytealg.drop (S (String.length a)) (a ++ String c b) = b.
Proof.
  induction a as [|x a IH]; [rewrite append_nil; cbn; apply drop_0 |].
  rewrite append_cons. by cbn.
Qed.

Lemma IndexByteString_app_None (a b : string) c :
  bytealg.IndexByteString a c = None ->
  bytealg.IndexByteString b c = None ->
  bytealg.IndexByteString (a ++ b) c = None.
Proof.
  intros Ha Hb. induction a as [|x a IH]; [done |].
  rewrite append_cons. cbn in *. destruct (Ascii.eqb x c); [done |].
  destruct (bytealg.IndexByteString a c); [done |]. by rewrite IH.
Qed.

Lemma IndexByteString_app_hit (a b : string) c :
  bytealg.IndexByteString a c = None ->
  bytealg.IndexByteString (a ++ String c b) c = Some (String.length a).
Proof.
  intros Ha. induction a as [|x a IH].
  - rewrite append_nil. cbn. by rewrite Ascii.eqb_refl.
  - rewrite append_cons. cbn in *. destruct (Ascii.eqb x c); [done |].
    destruct (bytealg.IndexByteString a c); [done |]. by rewrite IH.
Qed.

Lemma IndexByteString_cons_None (s : string) x c :
  x <> c -> bytealg.IndexByteString s c = None ->
  bytealg.IndexByteString (String x s) c = None.
Proof.
  intros Hx Hs. cbn. rewrite Hs. by destruct (Ascii.eqb_spec x c).
Qed.

Lemma LastIndexByteString_None (s : string) c :
  bytealg.IndexByteString s c = None -> bytealg.LastIndexByteString s c = None.
Proof.
  induction s as [|x s IH]; [done |]. cbn.
  destruct (Ascii.eqb x c); [done |].
  destruct (bytealg.IndexByteString s c); [done |]. intros _. by rewrite IH.
Qed.

Lemma LastIndexByteString_app_hit (a b : string) c :
  bytealg.IndexByteString b c = None ->
  bytealg.LastIndexByteString (a ++ String c b) c = Some (String.length a).
Proof.
  intros Hb. induction a as [|x a IH].
  - rewrite append_nil. cbn. rewrite (LastIndexByteString_None _ _ Hb).
    by rewrite Ascii.eqb_refl.
  - rewrite append_cons. cbn. by rewrite IH.
Qed.

Lemma hasByte_false (s : string) c :
  bytealg.IndexByteString s c = None -> hasByte s c = false.
Proof. unfold hasByte. by intros ->. Qed.

(** An address without a colon does not split. *)
Lemma SplitHostPort_no_colon (addr : string) :
  bytealg.IndexByteString addr ":" = None ->
  SplitHostPort addr = addrErr addr missingPort.
Proof.
  intros Hcolon. unfold SplitHostPort.
  by rewrite (LastIndexByteString_None _ _ Hcolon).
Qed.

(** [host:port] splits into [host] and [port] when neither holds a
    colon or a bracket. *)
Lemma SplitHostPort_join (host port : string) :
  Forall (fun c => bytealg.IndexByteString host c = None) [":"; "["; "]"]%char ->
  Forall (fun c => bytealg.IndexByteString port c = None) [":"; "["; "]"]%char ->
  SplitHostPort (host ++ ":" ++ port) = ok (host, port).
Proof.
  intros Hhost Hport.
  apply Forall_cons in Hhost as [Hh1 Hhost].
  apply Forall_cons in Hhost as [Hh2 Hhost].
  apply Forall_cons in Hhost as [Hh3 _].
  apply Forall_cons in Hport as [Hp1 Hport].
  apply Forall_cons in Hport as [Hp2 Hport].
  apply Forall_cons in Hport as [Hp3 _].
  change (":" ++ port) with (String ":" port).
  unfold SplitHostPort, finish.
  rewrite (LastIndexByteString_app_hit _ _ _ Hp1).
  rewrite decide_False.
  - cbn zeta. rewrite take_append, (hasByte_false _ _ Hh1), drop_0.
    rewrite !hasByte_false, drop_append_S; [done | |];
      apply IndexByteString_app_None; try done;
      by apply IndexByteString_cons_None.
  - destruct host as [|x host]; [by rewrite append_nil |].
    rewrite append_cons. cbn. intros [= ->]. by cbn in Hh2.
Qed.

(** [[host]:port] splits into [host] and [port] when the host holds no
    bracket (it may hold colons) and the port no colon or bracket. *)
Lemma SplitHostPort_join_bracket (host port : string) :
  Forall (fun c => bytealg.IndexByteString host c = None) ["["; "]"]%char ->
  Forall (fun c => bytealg.IndexByteString port c = None) [":"; "["; "]"]%char ->
  SplitHostPort ("[" ++ host ++ "]:" ++ port) = ok (host, port).
Proof.
  intros Hhost Hport.
  apply Forall_cons in Hhost as [Hh2 Hhost].
  apply Forall_cons in Hhost as [Hh3 _].
  apply Forall_cons in Hport as [Hp1 Hport].
  apply Forall_cons in Hport as [Hp2 Hport].
  apply Forall_cons in Hport as [Hp3 _].
  change ("[" ++ host ++ "]:" ++ port)
    with (String "[" (host ++ String "]" (String ":" port))).
  assert (Hlast : bytealg.LastIndexByteString
            (String "[" (host ++ String "]" (String ":" port))) ":"
          = Some (S (S (String.length host)))).
  { cbn [bytealg.LastIndexByteString].
    replace (host ++ String "]" (String ":" port))
      with ((host ++ "]") ++ String ":" port)
      by (by rewrite append_assoc).
    rewrite (LastIndexByteString_app_hit _ _ _ Hp1), length_append. cbn.
    do 2 f_equal. lia. }
  assert (Hend : bytealg.IndexByteString
            (String "[" (host ++ String "]" (String ":" port))) "]"
          = Some (S (String.length host))).
  { cbn [bytealg.IndexByteString]. cbn [Ascii.eqb Bool.eqb].
    by rewrite (IndexByteString_app_hit _ _ _ Hh3). }
  unfold SplitHostPort, finish. rewrite Hlast, Hend.
  rewrite decide_True by done.
  rewrite decide_False
    by (cbn [String.length]; rewrite length_append; cbn [String.length]; lia).
  rewrite decide_True by done.
  unfold bytealg.slice. cbn [bytealg.drop].
  replace (S (String.length host) - 1) with (String.length host) by lia.
  rewrite drop_0, take_append.
  rewrite (drop_append_S host (String ":" port)).
  rewrite hasByte_false.
  - rewrite hasByte_false by by apply IndexByteString_cons_None.
    replace (host ++ String "]" (String ":" port))
      with ((host ++ "]") ++ String ":" port)
      by (by rewrite append_assoc).
    replace (S (String.length host)) with (String.length (host ++ "]"))
      by (rewrite length_append; cbn; lia).
    by rewrite drop_append_S.
  - apply IndexByteString_app_None; [done |].
    apply IndexByteString_cons_None; [done |].
    by apply IndexByteString_cons_None.
Qed.

Lemma getRealIP_socket req :
  Get (Header req) "X-Real-IP" = "" ->
  Get (Header req) "X-Forwarded-For" = "" ->
  getRealIP req =
  match SplitHostPort (RemoteAddr req) with
  | ok (ip, _) => ip
  | err _ => RemoteAddr req
  end.
Proof.
  intros Hxri Hxff. unfold getRealIP.
  by rewrite !decide_False by (by intros []).
Qed.

Lemma Director_appends req ip port :
  Get (Header req) "X-Real-IP" = "" ->
  SplitHostPort (RemoteAddr req) = ok (ip, port) ->
  Header (Director req).1 !! "X-Forwarded-For" =
  Some [match Header req !! "X-Forwarded-For" with
        | Some prior => strings.Join prior ", " ++ ", " ++ ip
        | None => ip
        end].
Proof.
  intros Hxri Hsplit. rewrite Director_XForwardedFor.
  rewrite decide_False by (by intros []). by rewrite Hsplit.
Qed.

(** X6.  A remote address [host:port], neither part holding a colon or
    a bracket (an IPv4 peer): with no [X-Real-IP], the director appends
    exactly [host] to the chain, and [getRealIP] resolves to [host] when
    the request has no [X-Forwarded-For] value. *)
Theorem X6_host_port_address req host port :
  RemoteAddr req = host ++ ":" ++ port ->
  Forall (fun c => bytealg.IndexByteString host c = None) [":"; "["; "]"]%char ->
  Forall (fun c => bytealg.IndexByteString port c = None) [":"; "["; "]"]%char ->
  Get (Header req) "X-Real-IP" = "" ->
  Header (Director req).1 !! "X-Forwarded-For" =
  Some [match Header req !! "X-Forwarded-For" with
        | Some prior => strings.Join prior ", " ++ ", " ++ host
        | None => host
        end] /\
  (Get (Header req) "X-Forwarded-For" = "" -> getRealIP req = host).
Proof.
  intros Haddr Hhost Hport Hxri.
  pose proof (SplitHostPort_join host port Hhost Hport) as Hsplit.
  rewrite <- Haddr in Hsplit. split.
  - by apply (Director_appends req host port).
  - intros Hxff. by rewrite getRealIP_socket, Hsplit.
Qed.

(** X7.  A remote address [[host]:port], the host free of brackets (an
    IPv6 peer, colons and all): the brackets are dropped, the director
    appends exactly [host], and [getRealIP] resolves to [host]. *)
Theorem X7_bracketed_address req host port :
  RemoteAddr req = "[" ++ host ++ "]:" ++ port ->
  Forall (fun c => bytealg.IndexByteString host c = None) ["["; "]"]%char ->
  Forall (fun c => bytealg.IndexByteString port c = None) [":"; "["; "]"]%char ->
  Get (Header req) "X-Real-IP" = "" ->
  Header (Director req).1 !! "X-Forwarded-For" =
  Some [match Header req !! "X-Forwarded-For" with
        | Some prior => strings.Join prior ", " ++ ", " ++ host
        | None => host
        end] /\
  (Get (Header req) "X-Forwarded-For" = "" -> getRealIP req = host).
Proof.
  intros Haddr Hhost Hport Hxri.
  pose proof (SplitHostPort_join_bracket host port Hhost Hport) as Hsplit.
  rewrite <- Haddr in Hsplit. split.
  - by apply (Director_appends req host port).
  - intros Hxff. by rewrite getRealIP_socket, Hsplit.
Qed.

(** X8.  A remote address without any colon (a Unix socket peer):
    with no [X-Real-IP] the director leaves [X-Forwarded-For] as it
    arrived, and with no [X-Forwarded-For] value either [getRealIP]
    returns the address as it is. *)
Theorem X8_address_without_colon req :
  bytealg.IndexByteString (RemoteAddr req) ":" = None ->
  Get (Header req) "X-Real-IP" = "" ->
  Header (Director req).1 !! "X-Forwarded-For"
  = Header req !! "X-Forwarded-For" /\
  (Get (Header req) "X-Forwarded-For" = "" -> getRealIP req = RemoteAddr req).
Proof.
  intros Hcolon Hxri.
  pose proof (SplitHostPort_no_colon _ Hcolon) as Hsplit. split.
  - rewrite Director_XForwardedFor.
    rewrite decide_False by (by intros []). by rewrite Hsplit.
  - intros Hxff. by rewrite getRealIP_socket, Hsplit.
Qed.

(** X9.  The request that leaves the director always has the keys
    [X-Forwarded-Proto] and [X-Forwarded-Host]; it lacks
    [X-Forwarded-For] exactly when the request came without it, without
    an [X-Real-IP] value and from an address that does not split. *)
Theorem X9_forwarding_headers_present req :
  let out := Header (Director req).1 in
  is_Some (out !! "X-Forwarded-Proto") /\
  is_Some (out !! "X-Forwarded-Host") /\
  (out !! "X-Forwarded-For" = None <->
   Get (Header req) "X-Real-IP" = "" /\
   Header req !! "X-Forwarded-For" = None /\
   exists e, SplitHostPort (RemoteAddr req) = err e).
Proof.
  cbn zeta. split; [| split].
  - rewrite Director_XForwardedProto.
    by destruct (Header req !! "X-Forwarded-Proto").
  - rewrite Director_XForwardedHost.
    by destruct (Header req !! "X-Forwarded-Host").
  - rewrite Director_XForwardedFor.
    destruct (decide (Get (Header req) "X-Real-IP" <> "")) as [Hxri|Hxri].
    + split; [done |]. by intros [? _].
    + apply dec_stable in Hxri.
      destruct (SplitHostPort (RemoteAddr req)) as [[ip port]|e].
      * split; [done |]. by intros (_ & _ & e & ?).
      * split; [by eauto | by intros (_ & ? & _)].
Qed.

(** *** The director and the identity resolver together *)

Lemma Director_lookup_other req k :
  k ∉ ["Connection"; "Upgrade"; "Transfer-Encoding"; "X-Forwarded-For";
       "X-Forwarded-Proto"; "X-Forwarded-Host"] ->
  Header (Director req).1 !! k = Header req !! k.
Proof.
  intros Hk. rewrite Director_request.
  rewrite setForwardedHost_lookup_ne, setForwardedProto_lookup_ne,
    setForwardedFor_lookup_ne by (intros ->; apply Hk; listed).
  rewrite entry_lookup. rewrite bool_decide_eq_false_2; [done |].
  intros Hhop. apply Hk.
  repeat (apply elem_of_cons in Hhop as [->|Hhop]; [listed |]).
  by apply elem_of_nil in Hhop.
Qed.

Lemma Director_RemoteAddr req : RemoteAddr (Director req).1 = RemoteAddr req.
Proof.
  rewrite Director_shape. cbn.
  by destruct (originalDirector_frame req) as (_ & _ & _ & _ & _ & _ & -> & _).
Qed.

Lemma Director_XRealIP req :
  Get (Header (Director req).1) "X-Real-IP" = Get (Header req) "X-Real-IP".
Proof.
  apply Get_ext. rewrite canon_XRealIP. apply Director_lookup_other. listed.
Qed.

(** What stands before the first [c] is not changed by what follows
    it. *)
Lemma first_field_app (v t : string) c :
  match bytealg.IndexByteString (v ++ String c t) c with
  | Some i => bytealg.take i (v ++ String c t)
  | None => v ++ String c t
  end =
  match bytealg.IndexByteString v c with
  | Some i => bytealg.take i v
  | None => v
  end.
Proof.
  induction v as [|x v IH].
  - rewrite append_nil. cbn. by rewrite Ascii.eqb_refl.
  - rewrite append_cons. cbn [bytealg.IndexByteString].
    destruct (Ascii.eqb x c); [done |].
    destruct (bytealg.IndexByteString (v ++ String c t) c) as [i|],
      (bytealg.IndexByteString v c) as [j|]; cbn [bytealg.take];
      by rewrite ?IH.
Qed.

Lemma Join_cons_comma (v : string) (vs : list string) (ip : string) :
  exists t, strings.Join (v :: vs) ", " ++ ", " ++ ip = v ++ String "," t.
Proof.
  destruct vs as [|v2 vs]; cbn [strings.Join String.concat].
  - by eexists.
  - eexists. rewrite append_assoc. by f_equal.
Qed.

Lemma append_nonempty (a b : string) : a <> "" -> a ++ b <> "".
Proof. by destruct a. Qed.

Lemma Get_nonempty_first h key :
  Get h key <> "" ->
  exists vs, h !! CanonicalMIMEHeaderKey key = Some (Get h key :: vs).
Proof.
  unfold Get. destruct (h !! CanonicalMIMEHeaderKey key) as [[|v vs]|]; try done.
  intros _. by exists vs.
Qed.

(** X10.  The director keeps the identity [getRealIP] resolves, for a
    request with a non-empty [X-Real-IP] or [X-Forwarded-For] value: a
    next hop running the same resolver on the forwarded request finds
    the client address this hop found. *)
Theorem X10_director_keeps_identity req :
  Get (Header req) "X-Real-IP" <> "" \/ Get (Header req) "X-Forwarded-For" <> "" ->
  getRealIP (Director req).1 = getRealIP req.
Proof.
  intros Hsignal. unfold getRealIP.
  rewrite Director_XRealIP, Director_RemoteAddr.
  destruct (decide (Get (Header req) "X-Real-IP" <> "")) as [Hxri|Hxri];
    [done |].
  destruct Hsignal as [Hsignal|Hxff]; [done |].
  rewrite (decide_True _ _ Hxff).
  destruct (Get_nonempty_first (Header req) "X-Forwarded-For" Hxff)
    as (vs & Hprior).
  rewrite canon_XForwardedFor in Hprior.
  pose proof (Director_XForwardedFor req) as Hout.
  rewrite decide_False in Hout by done. rewrite Hprior in Hout.
  destruct (SplitHostPort (RemoteAddr req)) as [[ip port]|e].
  - destruct (Join_cons_comma (Get (Header req) "X-Forwarded-For") vs ip)
      as [t Ht].
    rewrite Ht in Hout.
    rewrite (Get_Some _ "X-Forwarded-For" _ []) by (by rewrite canon_XForwardedFor).
    rewrite decide_True by (by apply append_nonempty).
    destruct (Split_head (Get (Header req) "X-Forwarded-For" ++ String "," t) ",")
      as [fs1 ->].
    destruct (Split_head (Get (Header req) "X-Forwarded-For") ",") as [fs2 ->].
    by rewrite first_field_app.
  - rewrite (Get_Some _ "X-Forwarded-For" _ vs) by (by rewrite canon_XForwardedFor).
    by rewrite decide_True.
Qed.

(** *** The target URL *)

(** X11.  A backend URL with no path and no query: the request's path
    (one that starts with a slash and needs no escaping) and its query
    string are forwarded unchanged, under the backend's scheme and
    host. *)
Theorem X11_pathless_backend req :
  url.Path target = "" -> url.RawPath target = "" ->
  url.RawQuery target = "" ->
  url.RawPath (URL req) = "" ->
  strings.HasPrefix (url.Path (URL req)) "/" = true ->
  let u := URL (Director req).1 in
  url.Scheme u = url.Scheme target /\ url.Host u = url.Host target /\
  url.Path u = url.Path (URL req) /\ url.RawPath u = "" /\
  url.RawQuery u = url.RawQuery (URL req).
Proof.
  intros Hpath Hraw Hquery Hreqraw Hslash. cbn zeta.
  rewrite Director_shape. cbn [URL withHeader withHost].
  unfold originalDirector, httputil.NewSingleHostReverseProxy,
    httputil.rewriteRequestURL, httputil.joinURLPath,
    httputil.singleJoiningSlash.
  rewrite decide_True by done. rewrite Hpath, Hquery, Hslash.
  rewrite decide_True by (by left). by cbn.
Qed.

(** *** The first implementation *)

Lemma stripHopByHop_absent req :
  Header req !! "Connection" = None ->
  Header req !! "Upgrade" = None ->
  Header req !! "Transfer-Encoding" = None ->
  stripHopByHop req = req.
Proof.
  intros Hconn Hup Hte. unfold stripHopByHop. canon.
  rewrite (delete_id _ "Connection") by done.
  rewrite (delete_id _ "Upgrade") by done.
  rewrite (delete_id _ "Transfer-Encoding") by done.
  apply withHeader_id.
Qed.

Lemma setForwardedFor_withHost host req :
  setForwardedFor (withHost host req) = withHost host (setForwardedFor req).
Proof.
  unfold setForwardedFor. cbn [Header RemoteAddr withHost].
  destruct (decide _); [done |].
  by destruct (SplitHostPort (RemoteAddr req)) as [[ip port]|e].
Qed.

Lemma setForwardedProto_withHost host req :
  setForwardedProto (withHost host req) = withHost host (setForwardedProto req).
Proof.
  unfold setForwardedProto. cbn [Header TLS withHost].
  destruct (Header req !! "X-Forwarded-Proto"); [done |].
  destruct (TLS req); [done |]. by destruct (decide _).
Qed.

Lemma setForwardedHost_withHost originalHost host req :
  setForwardedHost originalHost (withHost host req)
  = withHost host (setForwardedHost originalHost req).
Proof.
  unfold setForwardedHost. cbn [Header withHost].
  by destruct (Header req !! "X-Forwarded-Host").
Qed.

Lemma setForwardedProto_Host req : Host (setForwardedProto req) = Host req.
Proof. by rewrite setForwardedProto_shape. Qed.

Lemma setForwardedFor_Host req : Host (setForwardedFor req) = Host req.
Proof. by rewrite setForwardedFor_shape. Qed.

Lemma appendClientIP_setForwardedFor req :
  Get (Header req) "X-Real-IP" = "" -> appendClientIP req = setForwardedFor req.
Proof.
  intros Hxri. unfold appendClientIP, setForwardedFor.
  by rewrite decide_False by (by intros []).
Qed.

Lemma protoIfAbsent_setForwardedProto req :
  protoIfAbsent req = setForwardedProto req.
Proof.
  unfold protoIfAbsent, setForwardedProto.
  destruct (Header req !! "X-Forwarded-Proto") eqn:Hp; [done |].
  destruct (TLS req); [done |]. rewrite decide_False; [done |].
  intros Hget. apply Hget, Get_None. by rewrite canon_XForwardedProto.
Qed.

Lemma hostIfAbsent_setForwardedHost req :
  hostIfAbsent req = setForwardedHost (Host req) req.
Proof. reflexivity. Qed.

Lemma appendClientIP_shape req :
  appendClientIP req = withHeader (Header (appendClientIP req)) req.
Proof.
  unfold appendClientIP.
  destruct (SplitHostPort _) as [[ip port]|e]; [done |].
  by rewrite withHeader_id.
Qed.

Lemma appendClientIP_lookup_ne req k :
  k <> "X-Forwarded-For" -> Header (appendClientIP req) !! k = Header req !! k.
Proof.
  intros Hk. unfold appendClientIP.
  destruct (SplitHostPort _) as [[ip port]|e]; [| done].
  cbn [Header withHeader]. canon. by rewrite lookup_insert_ne.
Qed.

(** X12.  The two implementations agree on a request without
    [X-Real-IP] value and without [Connection], [Upgrade] and
    [Transfer-Encoding]: the second director yields what the first
    yields, with the routing host set to the target's. *)
Theorem X12_implementations_agree req :
  Get (Header req) "X-Real-IP" = "" ->
  Header req !! "Connection" = None ->
  Header req !! "Upgrade" = None ->
  Header req !! "Transfer-Encoding" = None ->
  (Director req).1 = withHost (url.Host target) (Director_part_000 req).
Proof.
  intros Hxri Hconn Hup Hte.
  destruct (originalDirector_frame req) as (_ & _ & Hheader & _).
  rewrite Director_request. unfold Director_part_000.
  rewrite stripHopByHop_absent by (by rewrite Hheader).
  rewrite hostIfAbsent_setForwardedHost, protoIfAbsent_setForwardedProto.
  rewrite appendClientIP_setForwardedFor by (by rewrite Hheader).
  rewrite setForwardedFor_withHost, setForwardedProto_withHost,
    setForwardedHost_withHost.
  by rewrite setForwardedProto_Host, setForwardedFor_Host.
Qed.

(** X13.  On the request the director of the first implementation
    returns, the routing host, the method, the body and every header
    but the three forwarding ones are as they arrived: this director
    removes no header and does not rewrite the host. *)
Theorem X13_part_000_frame req :
  let out := Director_part_000 req in
  Host out = Host req /\ Method out = Method req /\ Body out = Body req /\
  (forall k,
     k ∉ ["X-Forwarded-For"; "X-Forwarded-Proto"; "X-Forwarded-Host"] ->
     Header out !! k = Header req !! k).
Proof.
  cbn zeta. unfold Director_part_000.
  rewrite hostIfAbsent_setForwardedHost, protoIfAbsent_setForwardedProto.
  destruct (originalDirector_frame req)
    as (Hmethod & _ & Hheader & Hbody & _ & Hhost & _).
  repeat split.
  - by rewrite setForwardedHost_shape, setForwardedProto_shape,
      appendClientIP_shape.
  - by rewrite setForwardedHost_shape, setForwardedProto_shape,
      appendClientIP_shape.
  - by rewrite setForwardedHost_shape, setForwardedProto_shape,
      appendClientIP_shape.
  - intros k Hk.
    rewrite setForwardedHost_lookup_ne, setForwardedProto_lookup_ne,
      appendClientIP_lookup_ne by (intros ->; apply Hk; listed).
    by rewrite Hheader.
Qed.

(** X14.  The first implementation appends the client address whatever
    [X-Real-IP] says: for an address that splits, [X-Forwarded-For] is
    the prior chain followed by the host (the host alone without a
    prior chain); for one that does not, it is left as it arrived. *)
Theorem X14_part_000_forwarded_for req :
  Header (Director_part_000 req) !! "X-Forwarded-For" =
  match SplitHostPort (RemoteAddr req) with
  | ok (clientIP, _) =>
      Some [match Header req !! "X-Forwarded-For" with
            | Some prior => strings.Join prior ", " ++ ", " ++ clientIP
            | None => clientIP
            end]
  | err _ => Header req !! "X-Forwarded-For"
  end.
Proof.
  unfold Director_part_000.
  rewrite hostIfAbsent_setForwardedHost, protoIfAbsent_setForwardedProto.
  rewrite setForwardedHost_lookup_ne, setForwardedProto_lookup_ne by keys.
  unfold appendClientIP.
  destruct (originalDirector_frame req)
    as (_ & _ & Hheader & _ & _ & _ & Haddr & _).
  rewrite Haddr.
  destruct (SplitHostPort (RemoteAddr req)) as [[ip port]|e];
    [| by rewrite Hheader].
  cbn [Header withHeader]. unfold Set_. rewrite canon_XForwardedFor.
  by rewrite lookup_insert_eq, Hheader.
Qed.

(** *** Start-up *)

(** X15.  [main] serves only with a [BACKEND_URL] that is set, not
    empty and parses; an unset or empty one is fatal whatever [PORT]
    says.  It listens on [":" + PORT], and on [":8080"] when [PORT] is
    unset or empty. *)
Theorem X15_configure (Parse : string -> string + url.URL)
    (env : gmap string string) :
  (env !! "BACKEND_URL" = None \/ env !! "BACKEND_URL" = Some "" ->
   configure Parse env
   = inl (Printf "BACKEND_URL environment variable is required" [])) /\
  (forall b e, env !! "BACKEND_URL" = Some b -> b <> "" -> Parse b = inl e ->
     configure Parse env = inl (Printf "Invalid BACKEND_URL: %v" [e])) /\
  (forall b t, env !! "BACKEND_URL" = Some b -> b <> "" -> Parse b = inr t ->
     (env !! "PORT" = None \/ env !! "PORT" = Some "" ->
      exists line, configure Parse env = inr (t, ":8080", line)) /\
     (forall p, env !! "PORT" = Some p -> p <> "" ->
      exists line, configure Parse env = inr (t, ":" ++ p, line))).
Proof.
  unfold configure, Getenv. split; [| split].
  - by intros [-> | ->].
  - intros b e -> Hb Hparse. cbn [from_option id]. rewrite decide_False by done.
    by rewrite Hparse.
  - intros b t -> Hb Hparse. cbn [from_option id]. rewrite decide_False by done.
    rewrite Hparse. split.
    + intros [-> | ->]; by eexists.
    + intros p -> Hp. cbn [from_option id]. rewrite decide_False by done.
      by eexists.
Qed.

(** *** The identity taken from the chain *)

Lemma take_before_IndexByteString (s : string) c i :
  bytealg.IndexByteString s c = Some i ->
  bytealg.IndexByteString (bytealg.take i s) c = None.
Proof.
  revert i. induction s as [|x s IH]; intros i; [done |]. cbn.
  destruct (Ascii.eqb x c) eqn:Hx; [by intros [= <-] |].
  destruct (bytealg.IndexByteString s c) as [j|]; [| done].
  intros [= <-]. cbn. rewrite Hx. by rewrite IH.
Qed.

(** X16.  With a [TrimSpace] that adds no comma, the identity
    [getRealIP] takes from a non-empty [X-Forwarded-For] value holds no
    comma: it is one element of the chain, never several. *)
Theorem X16_chain_identity_is_one_element req :
  (forall s, bytealg.IndexByteString s "," = None ->
             bytealg.IndexByteString (TrimSpace s) "," = None) ->
  Get (Header req) "X-Real-IP" = "" ->
  Get (Header req) "X-Forwarded-For" <> "" ->
  bytealg.IndexByteString (getRealIP req) "," = None.
Proof.
  intros Htrim Hxri Hxff. unfold getRealIP.
  rewrite decide_False by (by intros []). rewrite decide_True by done.
  destruct (Split_head (Get (Header req) "X-Forwarded-For") ",") as [fs ->].
  apply Htrim.
  destruct (bytealg.IndexByteString (Get (Header req) "X-Forwarded-For") ",")
    as [i|] eqn:Hi; [by apply take_before_IndexByteString | done].
Qed.

End proxy.

(** ** The claims on the sample data *)

Lemma C9_witness :
  Get (http.Header reqNoPortChain) "X-Real-IP" = "" /\
  net.SplitHostPort (http.RemoteAddr reqNoPortChain)
  = net.addrErr "@" net.missingPort /\
  http.Header (Director plainEscapedPath plainURLString backend reqNoPortChain).1
    !! "X-Forwarded-For" = Some ["10.0.0.1"].
Proof.
  split; [reflexivity | split; [reflexivity |]].
  etransitivity.
  - apply (C9_unsplittable_address_keeps_chain plainEscapedPath plainURLString
             backend reqNoPortChain (net.mkAddrError net.missingPort "@"));
      reflexivity.
  - reflexivity.
Defined.

Lemma C1_witness :
  (exists outreq,
     forwarded plainEscapedPath plainURLString backend reqChain
     = reverseproxy.Outbound outreq /\
     Get (http.Header outreq) "X-Forwarded-For"
     = "10.0.0.1, 10.0.0.2, 10.0.0.2") /\
  (exists outreq,
     forwarded plainEscapedPath plainURLString backend reqRealIP
     = reverseproxy.Outbound outreq /\
     Get (http.Header outreq) "X-Forwarded-For" = "203.0.113.7, 10.0.0.2") /\
  (exists outreq,
     forwarded plainEscapedPath plainURLString backend reqPlain
     = reverseproxy.Outbound outreq /\
     Get (http.Header outreq) "X-Forwarded-For" = "10.0.0.2, 10.0.0.2").
Proof.
  split; [| split].
  - destruct (C1_client_address_forwarded_twice plainEscapedPath plainURLString
                backend reqChain "10.0.0.2" "443" eq_refl)
      as (outreq & Hout & _ & Hget & _).
    exists outreq. split; [exact Hout |].
    etransitivity; [exact Hget | reflexivity].
  - destruct (C1_client_address_forwarded_twice plainEscapedPath plainURLString
                backend reqRealIP "10.0.0.2" "51000" eq_refl)
      as (outreq & Hout & _ & Hget & _).
    exists outreq. split; [exact Hout |].
    etransitivity; [exact Hget | reflexivity].
  - destruct (C1_client_address_forwarded_twice plainEscapedPath plainURLString
                backend reqPlain "10.0.0.2" "443" eq_refl)
      as (outreq & Hout & _ & Hget & _).
    exists outreq. split; [exact Hout |].
    etransitivity; [exact Hget | reflexivity].
Defined.

Lemma Director_forwarded_for_samples :
  http.Header (Director plainEscapedPath plainURLString backend reqRealIP).1
    !! "X-Forwarded-For" = Some ["203.0.113.7"] /\
  http.Header (Director plainEscapedPath plainURLString backend reqChain).1
    !! "X-Forwarded-For" = Some ["10.0.0.1, 10.0.0.2"] /\
  http.Header (Director plainEscapedPath plainURLString backend reqPlain).1
    !! "X-Forwarded-For" = Some ["10.0.0.2"].
Proof.
  split; [| split].
  - destruct (Director_forwarded_for plainEscapedPath plainURLString backend
                reqRealIP) as [Hxri _].
    etransitivity; [apply Hxri; by vm_compute | reflexivity].
  - destruct (Director_forwarded_for plainEscapedPath plainURLString backend
                reqChain) as [_ Hsplit].
    destruct (Hsplit eq_refl "10.0.0.2" "443" eq_refl) as (Hprior & _ & _).
    etransitivity; [by apply (Hprior ["10.0.0.1"]) | reflexivity].
  - destruct (Director_forwarded_for plainEscapedPath plainURLString backend
                reqPlain) as [_ Hsplit].
    destruct (Hsplit eq_refl "10.0.0.2" "443" eq_refl) as (_ & _ & Hnone).
    by apply Hnone.
Defined.

Lemma C2_witness :
  http.Header (Director plainEscapedPath plainURLString backend reqRealIP).1
    !! "X-Forwarded-Proto" = Some ["https"] /\
  http.Header (Director plainEscapedPath plainURLString backend reqChain).1
    !! "X-Forwarded-Proto" = Some ["https"] /\
  http.Header (Director plainEscapedPath plainURLString backend reqPlain).1
    !! "X-Forwarded-Proto" = Some ["http"].
Proof.
  split; [| split].
  - destruct (C2_forwarded_proto plainEscapedPath plainURLString backend
                reqRealIP) as [Hkeep _].
    by apply (Hkeep ["https"]).
  - destruct (C2_forwarded_proto plainEscapedPath plainURLString backend
                reqChain) as [_ Hset].
    destruct (Hset eq_refl) as [Htls _].
    by eapply Htls.
  - destruct (C2_forwarded_proto plainEscapedPath plainURLString backend
                reqPlain) as [_ Hset].
    destruct (Hset eq_refl) as [_ Hplain].
    by apply Hplain.
Defined.

Lemma C3_witness :
  http.Host (Director plainEscapedPath plainURLString backend reqPlain).1
  = "backend.internal:9000" /\
  http.Header (Director plainEscapedPath plainURLString backend reqPlain).1
    !! "X-Forwarded-Host" = Some ["shop.example.com"] /\
  http.Header (Director plainEscapedPath plainURLString backend reqRealIP).1
    !! "X-Forwarded-Host" = Some ["www.example.com"].
Proof.
  destruct (C3_host_rewrite plainEscapedPath plainURLString backend reqPlain)
    as (Hhost & Hnone & _).
  destruct (C3_host_rewrite plainEscapedPath plainURLString backend reqRealIP)
    as (_ & _ & Hkeep).
  split; [exact Hhost | split].
  - by apply Hnone.
  - by apply (Hkeep ["www.example.com"]).
Defined.

Lemma C4_witness :
  http.Header reqChain !! "Connection" = Some ["keep-alive"] /\
  http.Header (Director plainEscapedPath plainURLString backend reqChain).1
    !! "Connection" = None /\
  Get (http.Header (Director plainEscapedPath plainURLString backend reqChain).1)
    "connection" = "".
Proof.
  destruct (C4_hop_by_hop_absent plainEscapedPath plainURLString backend
              reqChain "connection") as (Hconn & _ & _ & Hget).
  split; [reflexivity | split; [exact Hconn |]].
  apply Hget. apply (bool_decide_unpack _). by vm_compute.
Defined.

Lemma C5_witness :
  getRealIP strings.TrimSpaceASCII reqRealIP = "203.0.113.7" /\
  getRealIP strings.TrimSpaceASCII reqChain = "10.0.0.1" /\
  getRealIP strings.TrimSpaceASCII reqPlain = "10.0.0.2" /\
  getRealIP strings.TrimSpaceASCII reqNoPort = "@".
Proof.
  split; [| split; [| split]].
  - destruct (C5_getRealIP strings.TrimSpaceASCII reqRealIP) as (Hxri & _).
    etransitivity; [apply Hxri; by vm_compute | reflexivity].
  - destruct (C5_getRealIP strings.TrimSpaceASCII reqChain) as (_ & Hxff & _).
    etransitivity; [apply Hxff; by vm_compute | reflexivity].
  - destruct (C5_getRealIP strings.TrimSpaceASCII reqPlain)
      as (_ & _ & Hhost & _).
    by destruct (Hhost eq_refl eq_refl "10.0.0.2" "443" eq_refl) as [-> _].
  - destruct (C5_getRealIP strings.TrimSpaceASCII reqNoPort)
      as (_ & _ & _ & Hraw).
    by rewrite (Hraw eq_refl eq_refl (net.mkAddrError net.missingPort "@")
                  eq_refl).
Defined.

Lemma C6_witness :
  Get (http.Header reqRealIP) "X-Real-IP" = "203.0.113.7" /\
  setForwardedFor (setForwardedFor reqRealIP) = setForwardedFor reqRealIP /\
  setForwardedFor (setForwardedFor reqNoPortChain)
  = setForwardedFor reqNoPortChain.
Proof.
  split; [reflexivity | split].
  - destruct (C6_blocks_applied_twice backend reqRealIP "shop.example.com")
      as (_ & _ & _ & _ & Hfor & _).
    apply Hfor. left. by vm_compute.
  - destruct (C6_blocks_applied_twice backend reqNoPortChain "shop.example.com")
      as (_ & _ & _ & _ & Hfor & _).
    apply Hfor. right. by eexists.
Defined.


Lemma C10_witness :
  http.Method (Director plainEscapedPath plainURLString backend reqChain).1
  = "GET" /\
  http.Header (Director plainEscapedPath plainURLString backend reqChain).1
    !! "Accept" = Some ["*/*"].
Proof.
  destruct (C10_frame plainEscapedPath plainURLString backend reqChain)
    as (Hmethod & _ & _ & _ & _ & _ & _ & _ & Hother).
  split; [exact Hmethod |].
  etransitivity; [apply Hother | reflexivity].
  apply (bool_decide_unpack _). by vm_compute.
Defined.

(** ** The further properties on the sample data *)

Lemma X2_witness :
  statusCode
    (serve [callSet "Content-Type" "text/plain"; callWriteHeader 404;
            callWrite "not found"] freshWriter) = 404%Z /\
  http.status
    (ResponseWriter
       (serve [callSet "Content-Type" "text/plain"; callWriteHeader 404;
               callWrite "not found"] freshWriter)) = 404%Z.
Proof.
  assert (Hpre : Forall (fun c => exists key value, c = callSet key value)
                   [callSet "Content-Type" "text/plain"])
    by (repeat constructor; by eexists _, _).
  assert (Hpost : Forall (fun c => forall code, c <> callWriteHeader code)
                    [callWrite "not found"]) by (by repeat constructor).
  destruct (X2_captured_status_is_sent _ _ 404 "" freshWriter eq_refl eq_refl
              Hpre Hpost) as [Hexplicit _].
  destruct (Hexplicit eq_refl eq_refl) as [Hcode Hsent].
  split; [exact Hcode | exact Hsent].
Defined.

Lemma X3_witness :
  (http.status
     (ResponseWriter
        (serve [callWriteHeader 200; callWrite "partial";
                callWriteHeader 500] freshWriter)) = 200%Z /\
   statusCode
     (serve [callWriteHeader 200; callWrite "partial"; callWriteHeader 500]
        freshWriter) = 500%Z) /\
  (http.status
     (ResponseWriter
        (serve [callWriteHeader 103; callWrite "body"] freshWriter)) = 200%Z /\
   http.interim
     (ResponseWriter
        (serve [callWriteHeader 103; callWrite "body"] freshWriter)) = [103%Z] /\
   statusCode
     (serve [callWriteHeader 103; callWrite "body"] freshWriter) = 103%Z).
Proof.
  assert (Hpre : Forall (fun c => exists key value, c = callSet key value) [])
    by constructor.
  assert (Hpost : Forall (fun c => forall code, c <> callWriteHeader code) [])
    by constructor.
  assert (Hmid : Forall (fun c => forall code, c = callWriteHeader code ->
                                  http.checkWriteHeaderCode code = true)
                   [callWrite "partial"]) by (by repeat constructor).
  destruct (X3_captured_status_follows_last_call [] [callWrite "partial"] []
              200 500 103 "body" freshWriter eq_refl eq_refl Hpre Hmid Hpost
              eq_refl)
    as (Hfirst & _ & Hinfo).
  split; [exact (Hfirst eq_refl eq_refl) | exact (Hinfo eq_refl)].
Defined.

Lemma X5_witness :
  http.status (logMiddleware strings.TrimSpaceASCII notFound freshResponse
                 reqPlain).1 = 404%Z /\
  last (logMiddleware strings.TrimSpaceASCII notFound freshResponse reqPlain).2
  = Some (Printf "Response: %s %s -> %d" ["GET"; "/items/42"; "404"]).
Proof.
  assert (Hpre : Forall (fun c => exists key value, c = callSet key value)
                   [callSet "Content-Type" "text/plain"])
    by (repeat constructor; by eexists _, _).
  assert (Hpost : Forall (fun c => forall code, c <> callWriteHeader code)
                    [callWrite "not found"]) by (by repeat constructor).
  destruct (X5_logMiddleware_logs_sent_status strings.TrimSpaceASCII notFound
              freshResponse reqPlain _ _ eq_refl eq_refl Hpre Hpost)
    as [Hexplicit _].
  exact (Hexplicit 404%Z eq_refl eq_refl eq_refl).
Defined.

Lemma X6_witness :
  http.Header (Director plainEscapedPath plainURLString backend reqChain).1
    !! "X-Forwarded-For" = Some ["10.0.0.1, 10.0.0.2"] /\
  getRealIP strings.TrimSpaceASCII reqPlain = "10.0.0.2".
Proof.
  assert (Hhost : Forall (fun c => bytealg.IndexByteString "10.0.0.2" c = None)
                    [":"; "["; "]"]%char) by (by repeat constructor).
  assert (Hport : Forall (fun c => bytealg.IndexByteString "443" c = None)
                    [":"; "["; "]"]%char) by (by repeat constructor).
  split.
  - exact (proj1 (X6_host_port_address strings.TrimSpaceASCII plainEscapedPath
                    plainURLString backend reqChain "10.0.0.2" "443" eq_refl
                    Hhost Hport eq_refl)).
  - exact (proj2 (X6_host_port_address strings.TrimSpaceASCII plainEscapedPath
                    plainURLString backend reqPlain "10.0.0.2" "443" eq_refl
                    Hhost Hport eq_refl) eq_refl).
Defined.

Lemma X7_witness :
  http.Header (Director plainEscapedPath plainURLString backend reqV6).1
    !! "X-Forwarded-For" = Some ["10.0.0.1, 2001:db8::1"].
Proof.
  assert (Hhost : Forall (fun c => bytealg.IndexByteString "2001:db8::1" c = None)
                    ["["; "]"]%char) by (by repeat constructor).
  assert (Hport : Forall (fun c => bytealg.IndexByteString "51234" c = None)
                    [":"; "["; "]"]%char) by (by repeat constructor).
  exact (proj1 (X7_bracketed_address strings.TrimSpaceASCII plainEscapedPath
                  plainURLString backend reqV6 "2001:db8::1" "51234" eq_refl
                  Hhost Hport eq_refl)).
Defined.

Lemma X8_witness :
  http.Header (Director plainEscapedPath plainURLString backend reqNoPortChain).1
    !! "X-Forwarded-For" = Some ["10.0.0.1"] /\
  getRealIP strings.TrimSpaceASCII reqNoPort = "@".
Proof.
  split.
  - exact (proj1 (X8_address_without_colon strings.TrimSpaceASCII
                    plainEscapedPath plainURLString backend reqNoPortChain
                    eq_refl eq_refl)).
  - exact (proj2 (X8_address_without_colon strings.TrimSpaceASCII
                    plainEscapedPath plainURLString backend reqNoPort
                    eq_refl eq_refl) eq_refl).
Defined.

Lemma X10_witness :
  getRealIP strings.TrimSpaceASCII reqChain = "10.0.0.1" /\
  getRealIP strings.TrimSpaceASCII
    (Director plainEscapedPath plainURLString backend reqChain).1 = "10.0.0.1".
Proof.
  split; [reflexivity |].
  etransitivity.
  - apply (X10_director_keeps_identity strings.TrimSpaceASCII plainEscapedPath
             plainURLString backend reqChain).
    right. by vm_compute.
  - reflexivity.
Defined.

Lemma X11_witness :
  url.Path (http.URL (Director plainEscapedPath plainURLString backend reqPlain).1)
  = "/items/42" /\
  url.Host (http.URL (Director plainEscapedPath plainURLString backend reqPlain).1)
  = "backend.internal:9000".
Proof.
  destruct (X11_pathless_backend plainEscapedPath plainURLString backend
              reqPlain eq_refl eq_refl eq_refl eq_refl eq_refl)
    as (_ & Hhost & Hpath & _).
  split; [exact Hpath | exact Hhost].
Defined.

Lemma X12_witness :
  (Director plainEscapedPath plainURLString backend reqV6).1
  = http.withHost "backend.internal:9000"
      (Director_part_000 plainEscapedPath backend reqV6).
Proof.
  exact (X12_implementations_agree plainEscapedPath plainURLString backend
           reqV6 eq_refl eq_refl eq_refl eq_refl).
Defined.

Lemma X15_witness :
  exists line,
    configure parseBackend sampleEnv = inr (backend, ":8080", line).
Proof.
  destruct (X15_configure parseBackend sampleEnv) as (_ & _ & Hserve).
  destruct (Hserve "http://backend.internal:9000" backend eq_refl)
    as [Hdefault _]; [done | reflexivity |].
  apply Hdefault. by right.
Defined.

Lemma trimLeft_keeps_free (s : string) c :
  bytealg.IndexByteString s c = None ->
  bytealg.IndexByteString (strings.trimLeft s) c = None.
Proof.
  induction s as [|x s IH]; [done |]. intros Hs. cbn [strings.trimLeft].
  destruct (strings.asciiSpace x); [| done].
  apply IH. cbn in Hs. destruct (Ascii.eqb x c); [done |].
  by destruct (bytealg.IndexByteString s c).
Qed.

Lemma trimRight_keeps_free (s : string) c :
  bytealg.IndexByteString s c = None ->
  bytealg.IndexByteString (strings.trimRight s) c = None.
Proof.
  induction s as [|x s IH]; [done |]. intros Hs. cbn in Hs.
  destruct (Ascii.eqb x c) eqn:Hx; [done |].
  destruct (bytealg.IndexByteString s c) eqn:Hrest; [done |].
  specialize (IH eq_refl). cbn [strings.trimRight].
  destruct (strings.trimRight s) as [|y t] eqn:Ht.
  - destruct (strings.asciiSpace x); [done |]. cbn. by rewrite Hx.
  - cbn [bytealg.IndexByteString]. rewrite Hx.
    cbn [bytealg.IndexByteString] in IH. by rewrite IH.
Qed.

Lemma TrimSpaceASCII_keeps_free (s : string) c :
  bytealg.IndexByteString s c = None ->
  bytealg.IndexByteString (strings.TrimSpaceASCII s) c = None.
Proof.
  intros Hs. by apply trimRight_keeps_free, trimLeft_keeps_free.
Qed.

Lemma X16_witness :
  Get (http.Header reqBlankFirst) "X-Forwarded-For" = ", 10.0.0.1" /\
  bytealg.IndexByteString (getRealIP strings.TrimSpaceASCII reqBlankFirst) ","
  = None.
Proof.
  split; [reflexivity |].
  apply (X16_chain_identity_is_one_element strings.TrimSpaceASCII reqBlankFirst).
  - intros s. apply TrimSpaceASCII_keeps_free.
  - reflexivity.
  - by vm_compute.
Defined.

(** A remote address without a port: [getRealIP] resolves it to the
    raw string ["@"], and the director sets no [X-Forwarded-For] at
    all; with a prior chain it leaves the chain as it was, nothing
    appended. *)
Lemma Director_address_without_port :
  Get (http.Header reqNoPort) "X-Real-IP" = "" /\
  http.Header reqNoPort !! "X-Forwarded-For" = None /\
  getRealIP strings.TrimSpaceASCII reqNoPort = "@" /\
  http.Header (Director plainEscapedPath plainURLString backend reqNoPort).1
    !! "X-Forwarded-For" = None /\
  http.Header reqNoPortChain !! "X-Forwarded-For" = Some ["10.0.0.1"] /\
  http.Header (Director plainEscapedPath plainURLString backend reqNoPortChain).1
    !! "X-Forwarded-For" = Some ["10.0.0.1"].
Proof. repeat split; by vm_compute. Qed.

(** ** Where the claims as first stated fail *)

(** C5 as first stated: the first non-empty of the three signals wins.
    Here [X-Real-IP] is empty, the first element of [X-Forwarded-For] is
    empty, the remote address splits to the non-empty host
    ["10.0.0.2"], which the rule as stated selects, and [getRealIP]
    returns the empty string. *)
Lemma C5_counterexample :
  Get (http.Header reqBlankFirst) "X-Real-IP" = "" /\
  Get (http.Header reqBlankFirst) "X-Forwarded-For" = ", 10.0.0.1" /\
  strings.Split ", 10.0.0.1" "," = [""; " 10.0.0.1"] /\
  net.SplitHostPort (http.RemoteAddr reqBlankFirst) = net.ok ("10.0.0.2", "443") /\
  firstNonEmpty
    [Get (http.Header reqBlankFirst) "X-Real-IP";
     strings.TrimSpaceASCII ""; "10.0.0.2"] = "10.0.0.2" /\
  getRealIP strings.TrimSpaceASCII reqBlankFirst = "".
Proof. repeat split; by vm_compute. Qed.

(** C6 as first stated: every block is idempotent.  Applied twice to a
    request with no [X-Real-IP], the [X-Forwarded-For] block appends the
    host twice. *)
Lemma C6_counterexample :
  http.Header (setForwardedFor reqPlain) !! "X-Forwarded-For"
  = Some ["10.0.0.2"] /\
  http.Header (setForwardedFor (setForwardedFor reqPlain)) !! "X-Forwarded-For"
  = Some ["10.0.0.2, 10.0.0.2"].
Proof. split; by vm_compute. Qed.

(** ** The scenarios of the specification *)

(** [X-Forwarded-For: 10.0.0.1], connection address [10.0.0.2:443],
    encrypted connection, no other forwarding header. *)
Example scenario_forwarding_headers :
  let out := (Director plainEscapedPath plainURLString backend reqChain).1 in
  Get (http.Header out) "X-Forwarded-For" = "10.0.0.1, 10.0.0.2" /\
  Get (http.Header out) "X-Forwarded-Proto" = "https" /\
  Get (http.Header out) "X-Forwarded-Host" = "shop.example.com".
Proof. repeat split; by vm_compute. Qed.

(** The same request as the transport is given it: the reverse proxy
    has appended the client address once more and added an empty
    [User-Agent]. *)
Example scenario_outbound_headers :
  match forwarded plainEscapedPath plainURLString backend reqChain with
  | reverseproxy.Outbound outreq =>
      (http.Header outreq !! "X-Forwarded-For",
       http.Header outreq !! "X-Forwarded-Proto",
       http.Header outreq !! "X-Forwarded-Host",
       http.Header outreq !! "Connection",
       http.Header outreq !! "User-Agent")
  | reverseproxy.Rejected _ => (None, None, None, None, None)
  end
  = (Some ["10.0.0.1, 10.0.0.2, 10.0.0.2"], Some ["https"],
     Some ["shop.example.com"], None, Some [""]).
Proof. by vm_compute. Qed.

(** Upstream [http://backend.internal:9000], inbound request to
    [/items/42]. *)
Example scenario_target :
  let out := (Director plainEscapedPath plainURLString backend reqPlain).1 in
  plainURLString (http.URL out) = "http://backend.internal:9000/items/42" /\
  http.Host out = "backend.internal:9000".
Proof. split; by vm_compute. Qed.

Example SplitHostPort_v6 : net.SplitHostPort "[::1]:80" = net.ok ("::1", "80").
Proof. reflexivity. Qed.

Example SplitHostPort_colons :
  net.SplitHostPort "::1:80" = net.addrErr "::1:80" net.tooManyColons.
Proof. reflexivity. Qed.

Example CanonicalMIMEHeaderKey_lower :
  CanonicalMIMEHeaderKey "x-forwarded-for" = "X-Forwarded-For".
Proof. reflexivity. Qed.
